(** * FutarchyDAOGovernanceFHE: the encrypted-batch governance contract

    A shallow embedding of the Solidity contract [FutarchyDAOGovernanceFHE]
    and the properties of its batch / proposal / decryption-callback
    protocol.

    Conventions of the embedding:
    - [uint256], [bytes32], [address] and the [euint32] handles (a
      user-defined value type over [bytes32]) are integers in [Z]; the
      checked arithmetic of Solidity 0.8 is written out ([checked_add]
      reverts with [Error.Panic] above [MAX_UINT256]);
    - a [mapping] is a [gmap] read with the Solidity default for absent
      keys ([mapping_get]);
    - a contract function is a computation in the monad [M]: it reads and
      writes [Storage], emits events, and may revert; a revert discards
      every write and event of the call ([transact]);
    - the FHE library, [keccak256] and [address(this)] are the members of
      the class [FHE.Host]. *)

From Stdlib Require Import ZArith List Bool Lia.
From Stdlib Require Import Init.Byte.
From stdpp Require Import base option list gmap.

Local Open Scope Z_scope.

(** ** Value types *)

Definition MAX_UINT256 : Z := 2 ^ 256 - 1.

Definition mapping_get {V : Type} (dflt : V) (m : gmap Z V) (k : Z) : V :=
  default dflt (m !! k).

(** ** Errors and events *)

Module Error.
Inductive t : Type :=
| NotOwner
| NotProvider
| Paused
| CooldownActive
| BatchClosed
| ReplayAttempt
| StateMismatch
| InvalidBatchId
| ProposalNotInitialized
| Panic                  (* checked arithmetic or array index, inserted by the compiler *)
| CheckSignaturesFailed  (* revert raised inside FHE.checkSignatures *)
| AbiDecodeFailed.       (* revert raised by abi.decode on short input *)

Definition eqb (a b : t) : bool :=
  match a, b with
  | NotOwner, NotOwner | NotProvider, NotProvider | Paused, Paused
  | CooldownActive, CooldownActive | BatchClosed, BatchClosed
  | ReplayAttempt, ReplayAttempt | StateMismatch, StateMismatch
  | InvalidBatchId, InvalidBatchId
  | ProposalNotInitialized, ProposalNotInitialized
  | Panic, Panic | CheckSignaturesFailed, CheckSignaturesFailed
  | AbiDecodeFailed, AbiDecodeFailed => true
  | _, _ => false
  end.
End Error.

Module Event.
Inductive t : Type :=
| OwnershipTransferred (previousOwner newOwner : Z)
| ProviderAdded (provider : Z)
| ProviderRemoved (provider : Z)
| Paused (account : Z)
| Unpaused (account : Z)
| CooldownSet (oldCooldownSeconds newCooldownSeconds : Z)
| BatchOpened (batchId : Z)
| BatchClosed (batchId : Z)
| ProposalSubmitted (batchId provider : Z)
| DecryptionRequested (requestId batchId : Z)
| DecryptionCompleted (requestId batchId proposalId targetValue marketPrediction : Z)
                      (governanceDecision : bool).
End Event.

(** ** Storage *)

Record Proposal : Type := {
  encryptedProposalId : Z;
  encryptedTargetValue : Z;
  encryptedMarketPrediction : Z
}.

Record DecryptionContext : Type := {
  batchId : Z;
  stateHash : Z;
  processed : bool
}.

Record Storage : Type := {
  owner : Z;
  isProvider : gmap Z bool;
  lastSubmissionTime : gmap Z Z;
  lastDecryptionRequestTime : gmap Z Z;
  paused : bool;
  cooldownSeconds : Z;
  currentBatchId : Z;
  batchOpen : bool;
  proposals : gmap Z Proposal;
  decryptionContexts : gmap Z DecryptionContext
}.

(** Storage before the constructor runs: every slot is zero. *)
Definition zero_storage : Storage :=
  {| owner := 0; isProvider := ∅; lastSubmissionTime := ∅;
     lastDecryptionRequestTime := ∅; paused := false; cooldownSeconds := 0;
     currentBatchId := 0; batchOpen := false; proposals := ∅;
     decryptionContexts := ∅ |}.

Definition zero_Proposal : Proposal :=
  {| encryptedProposalId := 0; encryptedTargetValue := 0;
     encryptedMarketPrediction := 0 |}.

Definition zero_DecryptionContext : DecryptionContext :=
  {| batchId := 0; stateHash := 0; processed := false |}.

(** Reads of the public mappings. *)
Definition isProvider_at (s : Storage) (a : Z) : bool :=
  mapping_get false (isProvider s) a.
Definition lastSubmissionTime_at (s : Storage) (a : Z) : Z :=
  mapping_get 0 (lastSubmissionTime s) a.
Definition lastDecryptionRequestTime_at (s : Storage) (a : Z) : Z :=
  mapping_get 0 (lastDecryptionRequestTime s) a.
Definition proposals_at (s : Storage) (b : Z) : Proposal :=
  mapping_get zero_Proposal (proposals s) b.
Definition decryptionContexts_at (s : Storage) (r : Z) : DecryptionContext :=
  mapping_get zero_DecryptionContext (decryptionContexts s) r.

(** Single-slot writes. *)
Definition set_owner (v : Z) (s : Storage) : Storage :=
  {| owner := v; isProvider := isProvider s;
     lastSubmissionTime := lastSubmissionTime s;
     lastDecryptionRequestTime := lastDecryptionRequestTime s;
     paused := paused s; cooldownSeconds := cooldownSeconds s;
     currentBatchId := currentBatchId s; batchOpen := batchOpen s;
     proposals := proposals s; decryptionContexts := decryptionContexts s |}.

Definition set_isProvider (a : Z) (v : bool) (s : Storage) : Storage :=
  {| owner := owner s; isProvider := <[a := v]> (isProvider s);
     lastSubmissionTime := lastSubmissionTime s;
     lastDecryptionRequestTime := lastDecryptionRequestTime s;
     paused := paused s; cooldownSeconds := cooldownSeconds s;
     currentBatchId := currentBatchId s; batchOpen := batchOpen s;
     proposals := proposals s; decryptionContexts := decryptionContexts s |}.

Definition set_lastSubmissionTime (a v : Z) (s : Storage) : Storage :=
  {| owner := owner s; isProvider := isProvider s;
     lastSubmissionTime := <[a := v]> (lastSubmissionTime s);
     lastDecryptionRequestTime := lastDecryptionRequestTime s;
     paused := paused s; cooldownSeconds := cooldownSeconds s;
     currentBatchId := currentBatchId s; batchOpen := batchOpen s;
     proposals := proposals s; decryptionContexts := decryptionContexts s |}.

Definition set_lastDecryptionRequestTime (a v : Z) (s : Storage) : Storage :=
  {| owner := owner s; isProvider := isProvider s;
     lastSubmissionTime := lastSubmissionTime s;
     lastDecryptionRequestTime := <[a := v]> (lastDecryptionRequestTime s);
     paused := paused s; cooldownSeconds := cooldownSeconds s;
     currentBatchId := currentBatchId s; batchOpen := batchOpen s;
     proposals := proposals s; decryptionContexts := decryptionContexts s |}.

Definition set_paused (v : bool) (s : Storage) : Storage :=
  {| owner := owner s; isProvider := isProvider s;
     lastSubmissionTime := lastSubmissionTime s;
     lastDecryptionRequestTime := lastDecryptionRequestTime s;
     paused := v; cooldownSeconds := cooldownSeconds s;
     currentBatchId := currentBatchId s; batchOpen := batchOpen s;
     proposals := proposals s; decryptionContexts := decryptionContexts s |}.

Definition set_cooldownSeconds (v : Z) (s : Storage) : Storage :=
  {| owner := owner s; isProvider := isProvider s;
     lastSubmissionTime := lastSubmissionTime s;
     lastDecryptionRequestTime := lastDecryptionRequestTime s;
     paused := paused s; cooldownSeconds := v;
     currentBatchId := currentBatchId s; batchOpen := batchOpen s;
     proposals := proposals s; decryptionContexts := decryptionContexts s |}.

Definition set_currentBatchId (v : Z) (s : Storage) : Storage :=
  {| owner := owner s; isProvider := isProvider s;
     lastSubmissionTime := lastSubmissionTime s;
     lastDecryptionRequestTime := lastDecryptionRequestTime s;
     paused := paused s; cooldownSeconds := cooldownSeconds s;
     currentBatchId := v; batchOpen := batchOpen s;
     proposals := proposals s; decryptionContexts := decryptionContexts s |}.

Definition set_batchOpen (v : bool) (s : Storage) : Storage :=
  {| owner := owner s; isProvider := isProvider s;
     lastSubmissionTime := lastSubmissionTime s;
     lastDecryptionRequestTime := lastDecryptionRequestTime s;
     paused := paused s; cooldownSeconds := cooldownSeconds s;
     currentBatchId := currentBatchId s; batchOpen := v;
     proposals := proposals s; decryptionContexts := decryptionContexts s |}.

Definition set_proposals (b : Z) (v : Proposal) (s : Storage) : Storage :=
  {| owner := owner s; isProvider := isProvider s;
     lastSubmissionTime := lastSubmissionTime s;
     lastDecryptionRequestTime := lastDecryptionRequestTime s;
     paused := paused s; cooldownSeconds := cooldownSeconds s;
     currentBatchId := currentBatchId s; batchOpen := batchOpen s;
     proposals := <[b := v]> (proposals s);
     decryptionContexts := decryptionContexts s |}.

Definition set_decryptionContexts (r : Z) (v : DecryptionContext) (s : Storage)
  : Storage :=
  {| owner := owner s; isProvider := isProvider s;
     lastSubmissionTime := lastSubmissionTime s;
     lastDecryptionRequestTime := lastDecryptionRequestTime s;
     paused := paused s; cooldownSeconds := cooldownSeconds s;
     currentBatchId := currentBatchId s; batchOpen := batchOpen s;
     proposals := proposals s;
     decryptionContexts := <[r := v]> (decryptionContexts s) |}.

Definition set_processed (v : bool) (d : DecryptionContext) : DecryptionContext :=
  {| batchId := batchId d; stateHash := stateHash d; processed := v |}.

(** ** The call monad: storage, emitted events, revert *)

Inductive result (A : Type) : Type :=
| Ok (a : A)
| Revert (e : Error.t).
Arguments Ok {A} a.
Arguments Revert {A} e.

Definition M (A : Type) : Type :=
  Storage → result (A * Storage * list Event.t).

Definition ret {A : Type} (a : A) : M A := λ s, Ok (a, s, []).

Definition bind {A B : Type} (m : M A) (k : A → M B) : M B :=
  λ s, match m s with
       | Ok (a, s1, l1) =>
           match k a s1 with
           | Ok (b, s2, l2) => Ok (b, s2, l1 ++ l2)
           | Revert e => Revert e
           end
       | Revert e => Revert e
       end.

Definition revert {A : Type} (e : Error.t) : M A := λ _, Revert e.
Definition sload : M Storage := λ s, Ok (s, s, []).
Definition sstore (f : Storage → Storage) : M unit := λ s, Ok (tt, f s, []).
Definition emit (e : Event.t) : M unit := λ s, Ok (tt, s, [e]).
Definition lift {A : Type} (r : result A) : M A :=
  λ s, match r with Ok a => Ok (a, s, []) | Revert e => Revert e end.

Declare Scope call_scope.
Delimit Scope call_scope with call.
Notation "'let*' x ':=' m 'in' k" := (bind m (λ x, k))
  (at level 10, x name, m at level 100, k at level 200) : call_scope.
Notation "m ';;;' k" := (bind m (λ _, k))
  (at level 100, k at level 200, right associativity) : call_scope.
Local Open Scope call_scope.

(** [require_not b e]: the statement [if (b) revert e();]. *)
Definition revert_if (b : bool) (e : Error.t) : M unit :=
  if b then revert e else ret tt.

(** Checked [uint256] addition of Solidity 0.8. *)
Definition checked_add (a b : Z) : M Z :=
  if MAX_UINT256 <? a + b then revert Error.Panic else ret (a + b).

(** ** The transaction environment *)

Record Ctx : Type := {
  msg_sender : Z;
  block_timestamp : Z;
  (** the request id that [FHE.requestDecryption] hands back in this
      transaction; it is chosen by the decryption service *)
  service_requestId : Z
}.

(** ** The FHE library and the hash, as seen by the contract *)

Module FHE.
Class Host : Type := {
  this : Z;
  isInitialized : Z → bool;
  asEuint32 : Z → Z;
  toBytes32 : Z → Z;
  checkSignatures : Z → list byte → list byte → bool;
  keccak256 : list Z → Z
}.
End FHE.

(** ** ABI decoding of the clear values *)

Definition uint256_of_bytes (bs : list byte) : Z :=
  fold_left (λ acc b, acc * 256 + Z.of_N (Byte.to_N b)) bs 0.

(** [abi.decode(data, (uint256, uint256, uint256))]: three big-endian
    32-byte words; input shorter than 96 bytes reverts, trailing bytes are
    ignored. *)
Definition abi_decode_uint256x3 (data : list byte) : option (Z * Z * Z) :=
  if (length data <? 96)%nat then None
  else Some (uint256_of_bytes (take 32 data),
             uint256_of_bytes (take 32 (drop 32 data)),
             uint256_of_bytes (take 32 (drop 64 data))).

Fixpoint bytes_of_uint (n : nat) (v : Z) : list byte :=
  match n with
  | O => []
  | S n' =>
      bytes_of_uint n' (v / 256) ++
      [default x00 (Byte.of_N (Z.to_N (v mod 256)))]
  end.

(** [abi.encode(a, b, c)] of three [uint256], as the service produces it. *)
Definition abi_encode_uint256x3 (a b c : Z) : list byte :=
  bytes_of_uint 32 a ++ bytes_of_uint 32 b ++ bytes_of_uint 32 c.

(** ** The contract *)

Section Contract.
Context `{host : FHE.Host}.

(** *** Modifiers *)

Definition onlyOwner (c : Ctx) : M unit :=
  let* s := sload in
  revert_if (negb (msg_sender c =? owner s)) Error.NotOwner.

Definition onlyProvider (c : Ctx) : M unit :=
  let* s := sload in
  revert_if (negb (isProvider_at s (msg_sender c))) Error.NotProvider.

Definition whenNotPaused : M unit :=
  let* s := sload in
  revert_if (paused s) Error.Paused.

Definition respectCooldown (c : Ctx) : M unit :=
  let* s := sload in
  let* ready := checked_add (lastSubmissionTime_at s (msg_sender c))
                            (cooldownSeconds s) in
  revert_if (block_timestamp c <? ready) Error.CooldownActive.

Definition respectDecryptionCooldown (c : Ctx) : M unit :=
  let* s := sload in
  let* ready := checked_add (lastDecryptionRequestTime_at s (msg_sender c))
                            (cooldownSeconds s) in
  revert_if (block_timestamp c <? ready) Error.CooldownActive.

(** *** Constructor and administration *)

Definition constructor (c : Ctx) : M unit :=
  sstore (set_owner (msg_sender c)) ;;;
  sstore (set_isProvider (msg_sender c) true) ;;;
  emit (Event.ProviderAdded (msg_sender c)) ;;;
  sstore (set_cooldownSeconds 60).

Definition transferOwnership (c : Ctx) (newOwner : Z) : M unit :=
  onlyOwner c ;;;
  let* s := sload in
  let previousOwner := owner s in
  sstore (set_owner newOwner) ;;;
  emit (Event.OwnershipTransferred previousOwner newOwner).

Definition addProvider (c : Ctx) (provider : Z) : M unit :=
  onlyOwner c ;;;
  let* s := sload in
  if negb (isProvider_at s provider) then
    sstore (set_isProvider provider true) ;;;
    emit (Event.ProviderAdded provider)
  else ret tt.

Definition removeProvider (c : Ctx) (provider : Z) : M unit :=
  onlyOwner c ;;;
  let* s := sload in
  if isProvider_at s provider then
    sstore (set_isProvider provider false) ;;;
    emit (Event.ProviderRemoved provider)
  else ret tt.

Definition pause (c : Ctx) : M unit :=
  onlyOwner c ;;;
  whenNotPaused ;;;
  sstore (set_paused true) ;;;
  emit (Event.Paused (msg_sender c)).

Definition unpause (c : Ctx) : M unit :=
  onlyOwner c ;;;
  sstore (set_paused false) ;;;
  emit (Event.Unpaused (msg_sender c)).

Definition setCooldownSeconds (c : Ctx) (newCooldownSeconds : Z) : M unit :=
  onlyOwner c ;;;
  let* s := sload in
  let oldCooldownSeconds := cooldownSeconds s in
  sstore (set_cooldownSeconds newCooldownSeconds) ;;;
  emit (Event.CooldownSet oldCooldownSeconds newCooldownSeconds).

(** *** Batches *)

Definition openBatch (c : Ctx) : M unit :=
  onlyOwner c ;;;
  whenNotPaused ;;;
  let* s := sload in
  let* next := checked_add (currentBatchId s) 1 in
  sstore (set_currentBatchId next) ;;;
  sstore (set_batchOpen true) ;;;
  let* s' := sload in
  emit (Event.BatchOpened (currentBatchId s')).

Definition closeBatch (c : Ctx) : M unit :=
  onlyOwner c ;;;
  whenNotPaused ;;;
  sstore (set_batchOpen false) ;;;
  let* s := sload in
  emit (Event.BatchClosed (currentBatchId s)).

(** *** Internal helpers *)

(** The loop of [_hashCiphertexts]: element [i] of [cts] is written to slot
    [i] of a [bytes32[3]]; a fourth element is an out-of-bounds write. *)
Fixpoint fill_ctsAsBytes32 (cts : list Z) (i : nat) (arr : list Z)
  : result (list Z) :=
  match cts with
  | [] => Ok arr
  | ct :: rest =>
      if (i <? 3)%nat
      then fill_ctsAsBytes32 rest (S i) (<[i := FHE.toBytes32 ct]> arr)
      else Revert Error.Panic
  end.

(** [abi.encode(ctsAsBytes32, address(this))]: four 32-byte words. *)
Definition abi_encode_cts (ctsAsBytes32 : list Z) (self : Z) : list Z :=
  ctsAsBytes32 ++ [self].

Definition _hashCiphertexts (cts : list Z) : result Z :=
  match fill_ctsAsBytes32 cts 0 [0; 0; 0] with
  | Ok ctsAsBytes32 => Ok (FHE.keccak256 (abi_encode_cts ctsAsBytes32 FHE.this))
  | Revert e => Revert e
  end.

(** The handle made by [FHE.asEuint32(0)] is dropped: [val] is a value
    parameter and nothing is assigned or returned. *)
Definition _initIfNeeded (val : Z) : M unit :=
  if negb (FHE.isInitialized val) then
    let _ := FHE.asEuint32 0 in ret tt
  else ret tt.

Definition _isProposalInitialized (s : Storage) (batchId : Z) : bool :=
  let p := proposals_at s batchId in
  FHE.isInitialized (encryptedProposalId p) &&
  FHE.isInitialized (encryptedTargetValue p) &&
  FHE.isInitialized (encryptedMarketPrediction p).

(** *** Proposals and decryption *)

Definition submitProposal (c : Ctx)
    (encryptedProposalId encryptedTargetValue encryptedMarketPrediction : Z)
  : M unit :=
  onlyProvider c ;;;
  whenNotPaused ;;;
  respectCooldown c ;;;
  let* s := sload in
  revert_if (negb (batchOpen s)) Error.BatchClosed ;;;
  sstore (set_lastSubmissionTime (msg_sender c) (block_timestamp c)) ;;;
  _initIfNeeded encryptedProposalId ;;;
  _initIfNeeded encryptedTargetValue ;;;
  _initIfNeeded encryptedMarketPrediction ;;;
  let* s := sload in
  sstore (set_proposals (currentBatchId s)
            {| encryptedProposalId := encryptedProposalId;
               encryptedTargetValue := encryptedTargetValue;
               encryptedMarketPrediction := encryptedMarketPrediction |}) ;;;
  emit (Event.ProposalSubmitted (currentBatchId s) (msg_sender c)).

Definition requestGovernanceDecision (c : Ctx) (batchId : Z) : M unit :=
  onlyProvider c ;;;
  whenNotPaused ;;;
  respectDecryptionCooldown c ;;;
  let* s := sload in
  revert_if (negb (batchId =? currentBatchId s)) Error.InvalidBatchId ;;;
  revert_if (negb (_isProposalInitialized s batchId))
            Error.ProposalNotInitialized ;;;
  sstore (set_lastDecryptionRequestTime (msg_sender c) (block_timestamp c)) ;;;
  let* s := sload in
  let p := proposals_at s batchId in
  let ctsArray := [encryptedProposalId p; encryptedTargetValue p;
                   encryptedMarketPrediction p] in
  let* stateHash := lift (_hashCiphertexts ctsArray) in
  let requestId := service_requestId c in
  sstore (set_decryptionContexts requestId
            {| batchId := batchId; stateHash := stateHash;
               processed := false |}) ;;;
  emit (Event.DecryptionRequested requestId batchId).

Definition myCallback (requestId : Z) (cleartexts proof : list byte) : M unit :=
  let* s := sload in
  revert_if (processed (decryptionContexts_at s requestId))
            Error.ReplayAttempt ;;;
  let ctx := decryptionContexts_at s requestId in
  let batchId := batchId ctx in
  let p := proposals_at s batchId in
  let currentCts := [encryptedProposalId p; encryptedTargetValue p;
                     encryptedMarketPrediction p] in
  let* currentStateHash := lift (_hashCiphertexts currentCts) in
  revert_if (negb (currentStateHash =? stateHash ctx)) Error.StateMismatch ;;;
  revert_if (negb (FHE.checkSignatures requestId cleartexts proof))
            Error.CheckSignaturesFailed ;;;
  match abi_decode_uint256x3 cleartexts with
  | None => revert Error.AbiDecodeFailed
  | Some (proposalId, targetValue, marketPrediction) =>
      let governanceDecision := marketPrediction >=? targetValue in
      sstore (λ s, set_decryptionContexts requestId
                     (set_processed true (decryptionContexts_at s requestId))
                     s) ;;;
      emit (Event.DecryptionCompleted requestId batchId proposalId
              targetValue marketPrediction governanceDecision)
  end.

End Contract.

(** ** Transactions and runs *)

Module Call.
Inductive t : Type :=
| transferOwnership (newOwner : Z)
| addProvider (provider : Z)
| removeProvider (provider : Z)
| pause
| unpause
| setCooldownSeconds (newCooldownSeconds : Z)
| openBatch
| closeBatch
| submitProposal
    (encryptedProposalId encryptedTargetValue encryptedMarketPrediction : Z)
| requestGovernanceDecision (batchId : Z)
| myCallback (requestId : Z) (cleartexts proof : list byte).

Definition is_openBatch (call : t) : bool :=
  match call with openBatch => true | _ => false end.

Definition is_submitProposal (call : t) : bool :=
  match call with submitProposal _ _ _ => true | _ => false end.

Definition is_requestGovernanceDecision (call : t) : bool :=
  match call with requestGovernanceDecision _ => true | _ => false end.

Definition is_myCallback (call : t) : bool :=
  match call with myCallback _ _ _ => true | _ => false end.

(** The modifier lists of the function headers. *)
Definition has_onlyOwner (call : t) : bool :=
  match call with
  | transferOwnership _ | addProvider _ | removeProvider _ | pause | unpause
  | setCooldownSeconds _ | openBatch | closeBatch => true
  | _ => false
  end.

Definition has_onlyProvider (call : t) : bool :=
  match call with
  | submitProposal _ _ _ | requestGovernanceDecision _ => true
  | _ => false
  end.

Definition has_whenNotPaused (call : t) : bool :=
  match call with
  | pause | openBatch | closeBatch | submitProposal _ _ _
  | requestGovernanceDecision _ => true
  | _ => false
  end.
End Call.

Section Transactions.
Context `{host : FHE.Host}.

Definition dispatch (c : Ctx) (call : Call.t) : M unit :=
  match call with
  | Call.transferOwnership newOwner => transferOwnership c newOwner
  | Call.addProvider provider => addProvider c provider
  | Call.removeProvider provider => removeProvider c provider
  | Call.pause => pause c
  | Call.unpause => unpause c
  | Call.setCooldownSeconds n => setCooldownSeconds c n
  | Call.openBatch => openBatch c
  | Call.closeBatch => closeBatch c
  | Call.submitProposal a b d => submitProposal c a b d
  | Call.requestGovernanceDecision b => requestGovernanceDecision c b
  | Call.myCallback r cleartexts proof => myCallback r cleartexts proof
  end.

(** The value [_hashCiphertexts] returns on the three handles of a proposal
    (lemma [_hashCiphertexts_proposal]). *)
Definition fingerprint (p : Proposal) : Z :=
  FHE.keccak256
    [FHE.toBytes32 (encryptedProposalId p);
     FHE.toBytes32 (encryptedTargetValue p);
     FHE.toBytes32 (encryptedMarketPrediction p);
     FHE.this].

(** The access modifier a call starts with ([myCallback] has none). *)
Definition access_modifier (c : Ctx) (call : Call.t) : M unit :=
  if Call.has_onlyOwner call then onlyOwner c
  else if Call.has_onlyProvider call then onlyProvider c
  else ret tt.

(** The modifiers of [requestGovernanceDecision], in order. *)
Definition request_modifiers (c : Ctx) : M unit :=
  onlyProvider c ;;; whenNotPaused ;;; respectDecryptionCooldown c.

Definition succeeds {A : Type} (m : M A) (s : Storage) : bool :=
  match m s with Ok _ => true | Revert _ => false end.

(** A transaction commits the writes of a call that returns and keeps the
    storage of a call that reverts. *)
Definition transact (c : Ctx) (call : Call.t) (s : Storage) : Storage :=
  match dispatch c call s with
  | Ok (_, s', _) => s'
  | Revert _ => s
  end.

Definition emitted (c : Ctx) (call : Call.t) (s : Storage) : list Event.t :=
  match dispatch c call s with
  | Ok (_, _, evs) => evs
  | Revert _ => []
  end.

Fixpoint run (tr : list (Ctx * Call.t)) (s : Storage) : Storage :=
  match tr with
  | [] => s
  | (c, call) :: tr' => run tr' (transact c call s)
  end.

Fixpoint run_log (tr : list (Ctx * Call.t)) (s : Storage) : list Event.t :=
  match tr with
  | [] => []
  | (c, call) :: tr' => emitted c call s ++ run_log tr' (transact c call s)
  end.

(** Number of [openBatch] calls of a run that returned. *)
Fixpoint successful_openBatch (tr : list (Ctx * Call.t)) (s : Storage) : nat :=
  match tr with
  | [] => O
  | (c, call) :: tr' =>
      ((if Call.is_openBatch call && succeeds (dispatch c call) s
        then 1 else 0)
       + successful_openBatch tr' (transact c call s))%nat
  end.

End Transactions.

(** The batch ids announced by [BatchOpened] events, in order. *)
Fixpoint opened_ids (evs : list Event.t) : list Z :=
  match evs with
  | [] => []
  | Event.BatchOpened b :: evs' => b :: opened_ids evs'
  | _ :: evs' => opened_ids evs'
  end.

(** [allots r (c, call)]: the transaction is a decryption request to which
    the service answers with request id [r]. *)
Definition allots (r : Z) (tx : Ctx * Call.t) : bool :=
  match snd tx with
  | Call.requestGovernanceDecision _ => service_requestId (fst tx) =? r
  | _ => false
  end.

(** ** A host to run the contract on

    Handles are initialized iff they are nonzero and [toBytes32] unwraps
    the handle, as in the FHE library; every proof is accepted; the hash is
    a stand-in polynomial digest. Only the concrete runs below use it: the
    properties are stated for every host. *)

Definition digest (ws : list Z) : Z :=
  fold_left (λ acc w, (acc * 1000003 + w + 1) mod 2 ^ 256) ws 7.

Definition sample_host : FHE.Host :=
  {| FHE.this := 4096;
     FHE.isInitialized := λ h, negb (h =? 0);
     FHE.asEuint32 := λ v, v + 1;
     FHE.toBytes32 := λ h, h;
     FHE.checkSignatures := λ _ _ _, true;
     FHE.keccak256 := digest |}.

Definition at_time (sender time : Z) : Ctx :=
  {| msg_sender := sender; block_timestamp := time; service_requestId := 0 |}.

Definition at_time_reply (sender time reply : Z) : Ctx :=
  {| msg_sender := sender; block_timestamp := time;
     service_requestId := reply |}.

(** Deployment by account 1. *)
Definition deployed : Storage :=
  match constructor (at_time 1 0) zero_storage with
  | Ok (_, s, _) => s
  | Revert _ => zero_storage
  end.

(** The deployed contract, paused by its owner. *)
Definition deployed_paused : Storage :=
  transact (host := sample_host) (at_time 1 20) Call.pause deployed.

(** The deployed contract with batch 1 open and no proposal. *)
Definition opened : Storage :=
  transact (host := sample_host) (at_time 1 10) Call.openBatch deployed.

(** The deployed contract with the batch counter at its maximum; it is
    what [MAX_UINT256] calls of [openBatch] by the owner lead to (lemma
    [run_openBatch_calls]). *)
Definition exhausted : Storage :=
  set_batchOpen true (set_currentBatchId MAX_UINT256 deployed).

Definition openBatch_calls (n : nat) : list (Ctx * Call.t) :=
  repeat (at_time 1 10, Call.openBatch) n.

(** Batch 1 with a proposal of handles (11, 12, 13), submitted by the
    owner at time 100. *)
Definition submitted : Storage :=
  transact (host := sample_host) (at_time 1 100)
    (Call.submitProposal 11 12 13) opened.

(** A decision requested for batch 1 at time 100; the service answers with
    request id 5. *)
Definition requested : Storage :=
  transact (host := sample_host) (at_time_reply 1 100 5)
    (Call.requestGovernanceDecision 1) submitted.

(** The proposal of batch 1 overwritten with handles (21, 22, 23) while
    request 5 is outstanding. *)
Definition overwritten : Storage :=
  transact (host := sample_host) (at_time 1 200)
    (Call.submitProposal 21 22 23) requested.

(** Request 5 settled with the clear values (7, 60, 90). *)
Definition settled : Storage :=
  transact (host := sample_host) (at_time 9 150)
    (Call.myCallback 5 (abi_encode_uint256x3 7 60 90) []) requested.

(** What happens after the settlement of request 5: the proposal is
    overwritten, batch 2 is opened, a proposal is submitted to it and a
    decision is requested (request id 6). *)
Definition later_transactions : list (Ctx * Call.t) :=
  [(at_time 1 200, Call.submitProposal 21 22 23);
   (at_time 1 210, Call.openBatch);
   (at_time 1 300, Call.submitProposal 31 32 33);
   (at_time_reply 1 300 6, Call.requestGovernanceDecision 2)].

(** Request 5 outstanding and the contract paused. *)
Definition requested_paused : Storage :=
  transact (host := sample_host) (at_time 1 120) Call.pause requested.

(** ** Reachable storage and undisturbed requests *)

(** The storage the constructor leaves when [c] deploys the contract. *)
Definition constructed (c : Ctx) : Storage :=
  match constructor c zero_storage with
  | Ok (_, s, _) => s
  | Revert _ => zero_storage
  end.

(** What every run from a deployment keeps: the batch counter is a
    [uint256]; an open batch has an id of at least 1; proposals are stored
    only under ids from 1 to the current one; stored contexts name a batch
    id from 0 to the current one. *)
Definition batch_invariant (s : Storage) : Prop :=
  0 ≤ currentBatchId s ≤ MAX_UINT256 ∧
  (batchOpen s = true → 1 ≤ currentBatchId s) ∧
  (∀ (b : Z) (p : Proposal),
     proposals s !! b = Some p → 1 ≤ b ≤ currentBatchId s) ∧
  (∀ (r : Z) (d : DecryptionContext),
     decryptionContexts s !! r = Some d → 0 ≤ batchId d ≤ currentBatchId s).

(** [leaves_request r tx]: the transaction is not a [submitProposal], not
    a decryption request answered with id [r], and not a callback for
    [r]. *)
Definition leaves_request (r : Z) (tx : Ctx * Call.t) : bool :=
  match snd tx with
  | Call.submitProposal _ _ _ => false
  | Call.requestGovernanceDecision _ => negb (service_requestId (fst tx) =? r)
  | Call.myCallback r' _ _ => negb (r' =? r)
  | _ => true
  end.

(** Number of [DecryptionCompleted] events for request id [r]. *)
Fixpoint completions (r : Z) (evs : list Event.t) : nat :=
  match evs with
  | [] => O
  | Event.DecryptionCompleted r' _ _ _ _ _ :: evs' =>
      ((if Z.eqb r' r then 1 else 0) + completions r evs')%nat
  | _ :: evs' => completions r evs'
  end.

(** * Properties *)

Ltac unfold_call :=
  unfold transferOwnership, addProvider, removeProvider, pause, unpause,
    setCooldownSeconds, openBatch, closeBatch, submitProposal,
    requestGovernanceDecision, myCallback, constructor, request_modifiers,
    onlyOwner, onlyProvider, whenNotPaused, respectCooldown,
    respectDecryptionCooldown, _initIfNeeded, checked_add, revert_if,
    bind, ret, revert, sload, sstore, emit, lift in *;
  cbv beta in *.

Ltac split_guard :=
  match goal with
  | |- context [if negb ?b then _ else _] => destruct b eqn:?; cbn [negb]
  | |- context [if ?b then _ else _] =>
      lazymatch type of b with bool => destruct b eqn:? end
  end.

Section AbiRoundTrip.

(** ** Decoding what the service encodes *)

Lemma uint256_of_bytes_snoc (bs : list byte) (b : byte) :
  uint256_of_bytes (bs ++ [b]) =
  uint256_of_bytes bs * 256 + Z.of_N (Byte.to_N b).
Proof. unfold uint256_of_bytes. now rewrite fold_left_app. Qed.

Lemma length_bytes_of_uint (n : nat) : ∀ v : Z,
  length (bytes_of_uint n v) = n.
Proof.
  induction n as [|n IH]; intros v; cbn [bytes_of_uint]; [reflexivity|].
  rewrite length_app, IH. cbn. lia.
Qed.

Lemma byte_of_small (k : Z) :
  0 ≤ k < 256 →
  Z.of_N (Byte.to_N (default x00 (Byte.of_N (Z.to_N k)))) = k.
Proof.
  intros Hk. destruct (Byte.of_N (Z.to_N k)) as [b|] eqn:Hb.
  - apply Byte.to_of_N in Hb. cbn. rewrite Hb. lia.
  - apply Byte.of_N_None_iff in Hb. lia.
Qed.

Lemma uint256_of_bytes_of_uint (n : nat) : ∀ v : Z,
  0 ≤ v →
  uint256_of_bytes (bytes_of_uint n v) = v mod 256 ^ Z.of_nat n.
Proof.
  induction n as [|n IH]; intros v Hv.
  - cbn. now rewrite Z.mod_1_r.
  - cbn [bytes_of_uint]. rewrite uint256_of_bytes_snoc.
    rewrite IH by (apply Z.div_pos; lia).
    rewrite byte_of_small by (apply Z.mod_pos_bound; lia).
    rewrite Nat2Z.inj_succ, Z.pow_succ_r by lia.
    rewrite (Z.rem_mul_r v 256 (256 ^ Z.of_nat n)) by lia. lia.
Qed.

(** Three [uint256] values, encoded as the service does, decode to
    themselves. *)
Lemma abi_decode_encode (a b c : Z) :
  0 ≤ a ≤ MAX_UINT256 → 0 ≤ b ≤ MAX_UINT256 → 0 ≤ c ≤ MAX_UINT256 →
  abi_decode_uint256x3 (abi_encode_uint256x3 a b c) = Some (a, b, c).
Proof.
  unfold MAX_UINT256. intros Ha Hb Hc.
  unfold abi_decode_uint256x3, abi_encode_uint256x3.
  rewrite !length_app, !length_bytes_of_uint. cbn [Nat.add Nat.ltb Nat.leb].
  assert (Hword : ∀ v, 0 ≤ v ≤ 2 ^ 256 - 1 →
                       uint256_of_bytes (bytes_of_uint 32 v) = v).
  { intros v Hv. rewrite uint256_of_bytes_of_uint by lia.
    change (256 ^ Z.of_nat 32) with (2 ^ 256). apply Z.mod_small. lia. }
  rewrite (take_app_length' (bytes_of_uint 32 a))
    by now rewrite length_bytes_of_uint.
  rewrite (drop_app_length' (bytes_of_uint 32 a))
    by now rewrite length_bytes_of_uint.
  rewrite (take_app_length' (bytes_of_uint 32 b))
    by now rewrite length_bytes_of_uint.
  change 64%nat with (32 + 32)%nat. rewrite <- drop_drop.
  rewrite (drop_app_length' (bytes_of_uint 32 a))
    by now rewrite length_bytes_of_uint.
  rewrite (drop_app_length' (bytes_of_uint 32 b))
    by now rewrite length_bytes_of_uint.
  rewrite firstn_all2 by now rewrite length_bytes_of_uint.
  now rewrite !Hword.
Qed.

End AbiRoundTrip.

Section CallEquations.
Context `{host : FHE.Host}.

(** ** What each call returns, guard by guard *)

Lemma _hashCiphertexts_proposal (p : Proposal) :
  _hashCiphertexts [encryptedProposalId p; encryptedTargetValue p;
                    encryptedMarketPrediction p] = Ok (fingerprint p).
Proof. reflexivity. Qed.

Lemma transferOwnership_eq c newOwner s :
  transferOwnership c newOwner s =
  if msg_sender c =? owner s
  then Ok (tt, set_owner newOwner s,
           [Event.OwnershipTransferred (owner s) newOwner])
  else Revert Error.NotOwner.
Proof. unfold_call; cbn; repeat (split_guard; cbn; try done). Qed.

Lemma addProvider_eq c provider s :
  addProvider c provider s =
  if msg_sender c =? owner s
  then if isProvider_at s provider then Ok (tt, s, [])
       else Ok (tt, set_isProvider provider true s,
                [Event.ProviderAdded provider])
  else Revert Error.NotOwner.
Proof. unfold_call; cbn; repeat (split_guard; cbn; try done). Qed.

Lemma removeProvider_eq c provider s :
  removeProvider c provider s =
  if msg_sender c =? owner s
  then if isProvider_at s provider
       then Ok (tt, set_isProvider provider false s,
                [Event.ProviderRemoved provider])
       else Ok (tt, s, [])
  else Revert Error.NotOwner.
Proof. unfold_call; cbn; repeat (split_guard; cbn; try done). Qed.

Lemma pause_eq c s :
  pause c s =
  if msg_sender c =? owner s
  then if paused s then Revert Error.Paused
       else Ok (tt, set_paused true s, [Event.Paused (msg_sender c)])
  else Revert Error.NotOwner.
Proof. unfold_call; cbn; repeat (split_guard; cbn; try done). Qed.

Lemma unpause_eq c s :
  unpause c s =
  if msg_sender c =? owner s
  then Ok (tt, set_paused false s, [Event.Unpaused (msg_sender c)])
  else Revert Error.NotOwner.
Proof. unfold_call; cbn; repeat (split_guard; cbn; try done). Qed.

Lemma setCooldownSeconds_eq c n s :
  setCooldownSeconds c n s =
  if msg_sender c =? owner s
  then Ok (tt, set_cooldownSeconds n s,
           [Event.CooldownSet (cooldownSeconds s) n])
  else Revert Error.NotOwner.
Proof. unfold_call; cbn; repeat (split_guard; cbn; try done). Qed.

Lemma openBatch_eq c s :
  openBatch c s =
  if msg_sender c =? owner s
  then if paused s then Revert Error.Paused
       else if MAX_UINT256 <? currentBatchId s + 1 then Revert Error.Panic
       else Ok (tt,
                set_batchOpen true
                  (set_currentBatchId (currentBatchId s + 1) s),
                [Event.BatchOpened (currentBatchId s + 1)])
  else Revert Error.NotOwner.
Proof. unfold_call; cbn; repeat (split_guard; cbn; try done). Qed.

Lemma closeBatch_eq c s :
  closeBatch c s =
  if msg_sender c =? owner s
  then if paused s then Revert Error.Paused
       else Ok (tt, set_batchOpen false s,
                [Event.BatchClosed (currentBatchId s)])
  else Revert Error.NotOwner.
Proof. unfold_call; cbn; repeat (split_guard; cbn; try done). Qed.

Lemma submitProposal_eq c a b d s :
  submitProposal c a b d s =
  if isProvider_at s (msg_sender c)
  then if paused s then Revert Error.Paused
  else if MAX_UINT256 <?
            lastSubmissionTime_at s (msg_sender c) + cooldownSeconds s
       then Revert Error.Panic
  else if block_timestamp c <?
            lastSubmissionTime_at s (msg_sender c) + cooldownSeconds s
       then Revert Error.CooldownActive
  else if batchOpen s
       then Ok (tt,
                set_proposals (currentBatchId s)
                  {| encryptedProposalId := a; encryptedTargetValue := b;
                     encryptedMarketPrediction := d |}
                  (set_lastSubmissionTime (msg_sender c)
                     (block_timestamp c) s),
                [Event.ProposalSubmitted (currentBatchId s) (msg_sender c)])
       else Revert Error.BatchClosed
  else Revert Error.NotProvider.
Proof. unfold_call; cbn; repeat (split_guard; cbn; try done). Qed.

Lemma requestGovernanceDecision_eq c b s :
  requestGovernanceDecision c b s =
  if isProvider_at s (msg_sender c)
  then if paused s then Revert Error.Paused
  else if MAX_UINT256 <?
            lastDecryptionRequestTime_at s (msg_sender c) + cooldownSeconds s
       then Revert Error.Panic
  else if block_timestamp c <?
            lastDecryptionRequestTime_at s (msg_sender c) + cooldownSeconds s
       then Revert Error.CooldownActive
  else if b =? currentBatchId s
  then if _isProposalInitialized s b
       then Ok (tt,
                set_decryptionContexts (service_requestId c)
                  {| batchId := b;
                     stateHash := fingerprint (proposals_at s b);
                     processed := false |}
                  (set_lastDecryptionRequestTime (msg_sender c)
                     (block_timestamp c) s),
                [Event.DecryptionRequested (service_requestId c) b])
       else Revert Error.ProposalNotInitialized
  else Revert Error.InvalidBatchId
  else Revert Error.NotProvider.
Proof. unfold_call; cbn; repeat (split_guard; cbn; try done). Qed.

Lemma myCallback_eq r cleartexts proof s :
  myCallback r cleartexts proof s =
  let ctx := decryptionContexts_at s r in
  if processed ctx then Revert Error.ReplayAttempt
  else if fingerprint (proposals_at s (batchId ctx)) =? stateHash ctx
  then if FHE.checkSignatures r cleartexts proof
       then match abi_decode_uint256x3 cleartexts with
            | Some (proposalId, targetValue, marketPrediction) =>
                Ok (tt,
                    set_decryptionContexts r (set_processed true ctx) s,
                    [Event.DecryptionCompleted r (batchId ctx) proposalId
                       targetValue marketPrediction
                       (marketPrediction >=? targetValue)])
            | None => Revert Error.AbiDecodeFailed
            end
       else Revert Error.CheckSignaturesFailed
  else Revert Error.StateMismatch.
Proof.
  unfold_call; unfold fingerprint; cbn.
  destruct (abi_decode_uint256x3 cleartexts) as [[[pid tv] mp]|];
    repeat (split_guard; cbn; try done).
Qed.

End CallEquations.

Ltac split_guard_in H :=
  match type of H with
  | context [if ?b then _ else _] =>
      lazymatch type of b with
      | bool => destruct b eqn:?; try discriminate H
      end
  end.

Ltac eqb_to_eq :=
  repeat match goal with
         | H : (_ =? _) = true |- _ => apply Z.eqb_eq in H
         | H : (_ =? _) = false |- _ => apply Z.eqb_neq in H
         end.

Ltac split_decode :=
  match goal with
  | |- context [match abi_decode_uint256x3 ?x with _ => _ end] =>
      destruct (abi_decode_uint256x3 x) as [[[? ?] ?]|]
  end.

Ltac rewrite_call :=
  rewrite ?transferOwnership_eq, ?addProvider_eq, ?removeProvider_eq,
    ?pause_eq, ?unpause_eq, ?setCooldownSeconds_eq, ?openBatch_eq,
    ?closeBatch_eq, ?submitProposal_eq, ?requestGovernanceDecision_eq,
    ?myCallback_eq.

(** Case analysis over every guard of a call. *)
Ltac call_cases :=
  unfold transact, emitted, succeeds; cbn [dispatch]; rewrite_call;
  cbv zeta; cbn; repeat (first [split_guard | split_decode]; cbn).

Section Properties.
Context `{host : FHE.Host}.

(** ** Effect of one transaction on each part of the storage *)

Lemma transact_currentBatchId c call s :
  currentBatchId (transact c call s) =
  currentBatchId s +
  (if Call.is_openBatch call && succeeds (dispatch c call) s then 1 else 0).
Proof. destruct call; call_cases; lia. Qed.

Lemma emitted_opened_ids c call s :
  opened_ids (emitted c call s) =
  if Call.is_openBatch call && succeeds (dispatch c call) s
  then [currentBatchId s + 1] else [].
Proof. destruct call; call_cases; reflexivity. Qed.

Lemma opened_ids_app evs1 evs2 :
  opened_ids (evs1 ++ evs2) = opened_ids evs1 ++ opened_ids evs2.
Proof.
  induction evs1 as [|ev evs1 IH]; [reflexivity|].
  destruct ev; cbn; rewrite ?IH; reflexivity.
Qed.

Lemma run_currentBatchId tr : ∀ s,
  currentBatchId (run tr s) =
  currentBatchId s + Z.of_nat (successful_openBatch tr s).
Proof.
  induction tr as [|[c call] tr IH]; intros s; cbn [run successful_openBatch].
  - cbn. lia.
  - rewrite IH, transact_currentBatchId.
    destruct (Call.is_openBatch call && succeeds (dispatch c call) s); lia.
Qed.

Lemma run_opened_ids tr : ∀ s,
  opened_ids (run_log tr s) =
  seqZ (currentBatchId s + 1) (Z.of_nat (successful_openBatch tr s)).
Proof.
  induction tr as [|[c call] tr IH]; intros s;
    cbn [run_log successful_openBatch]; [reflexivity|].
  rewrite opened_ids_app, emitted_opened_ids, IH, transact_currentBatchId.
  destruct (Call.is_openBatch call && succeeds (dispatch c call) s).
  - rewrite Nat2Z.inj_add, seqZ_app by lia.
    change (Z.of_nat 1) with 1. rewrite (seqZ_cons _ 1) by lia.
    reflexivity.
  - cbn [app Nat.add]. now rewrite Z.add_0_r.
Qed.

Lemma transact_lastSubmissionTime c call s :
  lastSubmissionTime (transact c call s) =
  if Call.is_submitProposal call && succeeds (dispatch c call) s
  then <[msg_sender c := block_timestamp c]> (lastSubmissionTime s)
  else lastSubmissionTime s.
Proof. destruct call; call_cases; reflexivity. Qed.

Lemma transact_lastDecryptionRequestTime c call s :
  lastDecryptionRequestTime (transact c call s) =
  if Call.is_requestGovernanceDecision call && succeeds (dispatch c call) s
  then <[msg_sender c := block_timestamp c]> (lastDecryptionRequestTime s)
  else lastDecryptionRequestTime s.
Proof. destruct call; call_cases; reflexivity. Qed.

Lemma transact_revert c call s e :
  dispatch c call s = Revert e → transact c call s = s ∧ emitted c call s = [].
Proof. unfold transact, emitted. now intros ->. Qed.

Lemma mapping_get_insert {V : Type} (dflt : V) (m : gmap Z V) (k k' : Z) (v : V) :
  mapping_get dflt (<[k := v]> m) k' =
  if k' =? k then v else mapping_get dflt m k'.
Proof.
  unfold mapping_get. destruct (Z.eqb_spec k' k) as [->|Hne].
  - now rewrite lookup_insert_eq.
  - now rewrite lookup_insert_ne by congruence.
Qed.

(** ** Construction *)

(** C8. The constructor, run on the all-zero storage, makes the deployer
    the owner, marks the deployer as a provider and emits [ProviderAdded]
    for it (the only event), and sets the cooldown to 60 seconds, which is
    not zero; the deployed storage differs from the all-zero one. *)
Theorem constructor_deployer_owner_provider_cooldown_60 (c : Ctx) :
  ∃ s : Storage,
    constructor c zero_storage =
      Ok (tt, s, [Event.ProviderAdded (msg_sender c)]) ∧
    owner s = msg_sender c ∧
    isProvider_at s (msg_sender c) = true ∧
    cooldownSeconds s = 60 ∧
    cooldownSeconds s ≠ 0 ∧
    s ≠ zero_storage.
Proof.
  eexists. split; [reflexivity|]. cbn.
  repeat split; try lia.
  - unfold isProvider_at. cbn. now rewrite mapping_get_insert, Z.eqb_refl.
  - intros Heq. apply (f_equal cooldownSeconds) in Heq. discriminate Heq.
Qed.

(** ** Batch ids *)

(** C6. A transaction changes [currentBatchId] only when it is an
    [openBatch] call that returns, and then by exactly 1; so after a run
    the id is the initial id plus the number of [openBatch] calls that
    returned, the ids announced by [BatchOpened] are the consecutive
    integers that follow the initial id, and none of them occurs twice. *)
Theorem currentBatchId_counts_successful_openBatch
    (tr : list (Ctx * Call.t)) (c : Ctx) (call : Call.t) (s : Storage) :
  currentBatchId (transact c call s) =
    currentBatchId s +
    (if Call.is_openBatch call && succeeds (dispatch c call) s
     then 1 else 0) ∧
  currentBatchId (run tr s) =
    currentBatchId s + Z.of_nat (successful_openBatch tr s) ∧
  opened_ids (run_log tr s) =
    seqZ (currentBatchId s + 1) (Z.of_nat (successful_openBatch tr s)) ∧
  NoDup (opened_ids (run_log tr s)).
Proof.
  split; [apply transact_currentBatchId|].
  split; [apply run_currentBatchId|].
  split; [apply run_opened_ids|].
  rewrite run_opened_ids. apply NoDup_seqZ.
Qed.

(** ** Cooldown timestamps *)

Lemma submitProposal_ignores_lastDecryptionRequestTime c x y z a v s :
  succeeds (submitProposal c x y z) (set_lastDecryptionRequestTime a v s) =
  succeeds (submitProposal c x y z) s.
Proof.
  unfold succeeds. rewrite !submitProposal_eq.
  unfold isProvider_at, lastSubmissionTime_at. cbn.
  repeat (split_guard; try reflexivity).
Qed.

Lemma requestGovernanceDecision_ignores_lastSubmissionTime c b a v s :
  succeeds (requestGovernanceDecision c b) (set_lastSubmissionTime a v s) =
  succeeds (requestGovernanceDecision c b) s.
Proof.
  unfold succeeds. rewrite !requestGovernanceDecision_eq.
  unfold isProvider_at, lastDecryptionRequestTime_at, _isProposalInitialized,
    proposals_at. cbn.
  repeat (split_guard; try reflexivity).
Qed.

(** C7. The submission timestamp of the caller becomes [block.timestamp]
    exactly when the transaction is a [submitProposal] that returns, and
    the decryption-request timestamp exactly when it is a
    [requestGovernanceDecision] that returns; in every other case (another
    call, or a call that reverts at any check) both mappings are left as
    they were. Each cooldown check reads its own mapping only. *)
Theorem cooldown_timestamps_follow_success
    (c : Ctx) (call : Call.t) (s : Storage) :
  lastSubmissionTime (transact c call s) =
    (if Call.is_submitProposal call && succeeds (dispatch c call) s
     then <[msg_sender c := block_timestamp c]> (lastSubmissionTime s)
     else lastSubmissionTime s) ∧
  lastDecryptionRequestTime (transact c call s) =
    (if Call.is_requestGovernanceDecision call && succeeds (dispatch c call) s
     then <[msg_sender c := block_timestamp c]> (lastDecryptionRequestTime s)
     else lastDecryptionRequestTime s) ∧
  (∀ a : Z,
     lastSubmissionTime_at (transact c call s) a =
       if Call.is_submitProposal call && succeeds (dispatch c call) s
          && (a =? msg_sender c)
       then block_timestamp c else lastSubmissionTime_at s a) ∧
  (∀ a : Z,
     lastDecryptionRequestTime_at (transact c call s) a =
       if Call.is_requestGovernanceDecision call
          && succeeds (dispatch c call) s && (a =? msg_sender c)
       then block_timestamp c else lastDecryptionRequestTime_at s a) ∧
  (∀ x y z a v : Z,
     succeeds (submitProposal c x y z) (set_lastDecryptionRequestTime a v s) =
     succeeds (submitProposal c x y z) s) ∧
  (∀ b a v : Z,
     succeeds (requestGovernanceDecision c b) (set_lastSubmissionTime a v s) =
     succeeds (requestGovernanceDecision c b) s).
Proof.
  split; [apply transact_lastSubmissionTime|].
  split; [apply transact_lastDecryptionRequestTime|].
  split; [|split; [|split]].
  - intros a. unfold lastSubmissionTime_at.
    rewrite transact_lastSubmissionTime.
    destruct (Call.is_submitProposal call && succeeds (dispatch c call) s);
      [|reflexivity].
    now rewrite mapping_get_insert.
  - intros a. unfold lastDecryptionRequestTime_at.
    rewrite transact_lastDecryptionRequestTime.
    destruct (Call.is_requestGovernanceDecision call
              && succeeds (dispatch c call) s); [|reflexivity].
    now rewrite mapping_get_insert.
  - intros. apply submitProposal_ignores_lastDecryptionRequestTime.
  - intros. apply requestGovernanceDecision_ignores_lastSubmissionTime.
Qed.

(** ** The decryption callback *)

Lemma requestGovernanceDecision_Ok c b s s1 evs :
  requestGovernanceDecision c b s = Ok (tt, s1, evs) →
  b = currentBatchId s ∧
  _isProposalInitialized s b = true ∧
  s1 = set_decryptionContexts (service_requestId c)
         {| batchId := b; stateHash := fingerprint (proposals_at s b);
            processed := false |}
         (set_lastDecryptionRequestTime (msg_sender c) (block_timestamp c) s) ∧
  evs = [Event.DecryptionRequested (service_requestId c) b].
Proof.
  rewrite requestGovernanceDecision_eq. intros H.
  repeat split_guard_in H. eqb_to_eq.
  injection H as <- <-. auto.
Qed.

Lemma submitProposal_Ok c a b d s s1 evs :
  submitProposal c a b d s = Ok (tt, s1, evs) →
  batchOpen s = true ∧
  s1 = set_proposals (currentBatchId s)
         {| encryptedProposalId := a; encryptedTargetValue := b;
            encryptedMarketPrediction := d |}
         (set_lastSubmissionTime (msg_sender c) (block_timestamp c) s) ∧
  evs = [Event.ProposalSubmitted (currentBatchId s) (msg_sender c)].
Proof.
  rewrite submitProposal_eq. intros H.
  repeat split_guard_in H. injection H as <- <-. auto.
Qed.

Lemma myCallback_Ok r cleartexts proof s s1 evs :
  myCallback r cleartexts proof s = Ok (tt, s1, evs) →
  let ctx := decryptionContexts_at s r in
  processed ctx = false ∧
  fingerprint (proposals_at s (batchId ctx)) = stateHash ctx ∧
  FHE.checkSignatures r cleartexts proof = true ∧
  s1 = set_decryptionContexts r (set_processed true ctx) s ∧
  ∃ proposalId targetValue marketPrediction : Z,
    abi_decode_uint256x3 cleartexts =
      Some (proposalId, targetValue, marketPrediction) ∧
    evs = [Event.DecryptionCompleted r (batchId ctx) proposalId targetValue
             marketPrediction (marketPrediction >=? targetValue)].
Proof.
  rewrite myCallback_eq. cbv zeta. intros H.
  repeat split_guard_in H. eqb_to_eq.
  destruct (abi_decode_uint256x3 cleartexts) as [[[pid tv] mp]|];
    [|discriminate H].
  injection H as <- <-. eauto 10.
Qed.

(** The replay check comes first: a processed context rejects the callback
    whatever the stored handles, the payload and the proof are. *)
Lemma myCallback_processed r cleartexts proof s :
  processed (decryptionContexts_at s r) = true →
  myCallback r cleartexts proof s = Revert Error.ReplayAttempt.
Proof. intros H. rewrite myCallback_eq. cbv zeta. now rewrite H. Qed.

Lemma myCallback_stale r cleartexts proof s :
  processed (decryptionContexts_at s r) = false →
  fingerprint (proposals_at s (batchId (decryptionContexts_at s r))) ≠
    stateHash (decryptionContexts_at s r) →
  myCallback r cleartexts proof s = Revert Error.StateMismatch.
Proof.
  intros Hp Hne. rewrite myCallback_eq. cbv zeta. rewrite Hp.
  now apply Z.eqb_neq in Hne as ->.
Qed.

(** C1. A decision is requested for batch [B]; the context stored under the
    returned request id holds the fingerprint of the three handles stored
    for [B] at that moment. A later [submitProposal] overwrites the
    proposal of [B] with handles whose fingerprint differs. The callback
    for that request id then recomputes the fingerprint from the handles
    now stored for the context's batch id, reverts with [StateMismatch],
    and the transaction leaves the storage as it was and emits nothing. *)
Theorem overwritten_proposal_callback_StateMismatch
    (c1 c2 c3 : Ctx) (B a b d : Z) (cleartexts proof : list byte)
    (s s1 s2 : Storage) (ev1 ev2 : list Event.t) :
  requestGovernanceDecision c1 B s = Ok (tt, s1, ev1) →
  submitProposal c2 a b d s1 = Ok (tt, s2, ev2) →
  fingerprint {| encryptedProposalId := a; encryptedTargetValue := b;
                 encryptedMarketPrediction := d |} ≠
    fingerprint (proposals_at s B) →
  stateHash (decryptionContexts_at s1 (service_requestId c1)) =
    fingerprint (proposals_at s B) ∧
  decryptionContexts_at s2 (service_requestId c1) =
    decryptionContexts_at s1 (service_requestId c1) ∧
  proposals_at s2 (batchId (decryptionContexts_at s2 (service_requestId c1))) =
    {| encryptedProposalId := a; encryptedTargetValue := b;
       encryptedMarketPrediction := d |} ∧
  myCallback (service_requestId c1) cleartexts proof s2 =
    Revert Error.StateMismatch ∧
  transact c3 (Call.myCallback (service_requestId c1) cleartexts proof) s2 =
    s2 ∧
  emitted c3 (Call.myCallback (service_requestId c1) cleartexts proof) s2 = [].
Proof.
  intros Hreq Hsub Hne.
  apply requestGovernanceDecision_Ok in Hreq as (HB & _ & Hs1 & _).
  apply submitProposal_Ok in Hsub as (_ & Hs2 & _).
  assert (Hctx : decryptionContexts_at s1 (service_requestId c1) =
                 {| batchId := B; stateHash := fingerprint (proposals_at s B);
                    processed := false |}).
  { rewrite Hs1. unfold decryptionContexts_at. cbn.
    now rewrite mapping_get_insert, Z.eqb_refl. }
  assert (Hctx2 : decryptionContexts_at s2 (service_requestId c1) =
                  decryptionContexts_at s1 (service_requestId c1)).
  { rewrite Hs2. reflexivity. }
  assert (Hprop : proposals_at s2 B =
                  {| encryptedProposalId := a; encryptedTargetValue := b;
                     encryptedMarketPrediction := d |}).
  { rewrite Hs2, Hs1. unfold proposals_at. cbn.
    now rewrite mapping_get_insert, HB, Z.eqb_refl. }
  assert (Hcb : myCallback (service_requestId c1) cleartexts proof s2 =
                Revert Error.StateMismatch).
  { apply myCallback_stale; rewrite Hctx2, Hctx; cbn; [reflexivity|].
    now rewrite Hprop. }
  repeat split.
  - now rewrite Hctx.
  - exact Hctx2.
  - now rewrite Hctx2, Hctx.
  - exact Hcb.
  - now apply (transact_revert c3 (Call.myCallback _ _ _)) in Hcb.
  - now apply (transact_revert c3 (Call.myCallback _ _ _)) in Hcb.
Qed.

(** A context that is processed stays processed under every transaction
    that is not a decryption request answered with the same request id. *)
Lemma transact_processed c call s r :
  processed (decryptionContexts_at s r) = true →
  allots r (c, call) = false →
  processed (decryptionContexts_at (transact c call s) r) = true.
Proof.
  unfold decryptionContexts_at, allots. intros Hp Hfresh.
  destruct call; cbn [fst snd] in Hfresh; call_cases;
    rewrite ?mapping_get_insert; try exact Hp.
  - rewrite Z.eqb_sym, Hfresh. exact Hp.
  - destruct (r =? requestId); [reflexivity | exact Hp].
Qed.

Lemma run_processed tr r : ∀ s,
  processed (decryptionContexts_at s r) = true →
  forallb (λ tx, negb (allots r tx)) tr = true →
  processed (decryptionContexts_at (run tr s) r) = true.
Proof.
  induction tr as [|[c call] tr IH]; intros s Hp Hfresh; [exact Hp|].
  cbn [forallb] in Hfresh. apply andb_true_iff in Hfresh as [Hhd Htl].
  apply negb_true_iff in Hhd. cbn [run].
  apply IH; [|exact Htl]. now apply transact_processed.
Qed.

(** C2. After a callback for request id [r] has returned, the context of
    [r] is processed, and it stays so through any later transactions in
    which the decryption service hands out no request id equal to [r].
    Every later callback for [r], with any payload and any proof, then
    reverts with [ReplayAttempt]; the transaction leaves the whole storage
    as it was and emits nothing. Nothing but the processed flag is
    consulted: the handles, the payload and the proof are arbitrary. *)
Theorem processed_request_callback_ReplayAttempt
    (r : Z) (cleartexts proof cleartexts' proof' : list byte)
    (s s1 : Storage) (evs : list Event.t)
    (tr : list (Ctx * Call.t)) (c : Ctx) :
  myCallback r cleartexts proof s = Ok (tt, s1, evs) →
  forallb (λ tx, negb (allots r tx)) tr = true →
  processed (decryptionContexts_at s1 r) = true ∧
  processed (decryptionContexts_at (run tr s1) r) = true ∧
  myCallback r cleartexts' proof' (run tr s1) = Revert Error.ReplayAttempt ∧
  transact c (Call.myCallback r cleartexts' proof') (run tr s1) = run tr s1 ∧
  emitted c (Call.myCallback r cleartexts' proof') (run tr s1) = [].
Proof.
  intros Hok Hfresh.
  apply myCallback_Ok in Hok as (_ & _ & _ & Hs1 & _).
  assert (Hp1 : processed (decryptionContexts_at s1 r) = true).
  { rewrite Hs1. unfold decryptionContexts_at. cbn.
    now rewrite mapping_get_insert, Z.eqb_refl. }
  pose proof (run_processed tr r s1 Hp1 Hfresh) as Hp2.
  pose proof (myCallback_processed r cleartexts' proof' _ Hp2) as Hcb.
  repeat split; try assumption;
    now apply (transact_revert c (Call.myCallback _ _ _)) in Hcb.
Qed.

(** C9. For a request id under which no context was ever stored, the
    callback reads the default context (batch id 0, zero fingerprint, not
    processed). It therefore passes the replay check and compares the
    fingerprint of the handles stored for batch 0 with zero: when they
    differ the call reverts with [StateMismatch] and changes nothing, so a
    decision is settled only if that fingerprint is zero. The error is
    never one that is specific to unknown request ids: a call that reverts
    does so with [StateMismatch], or, past the fingerprint comparison, with
    the revert of the signature check or of the decoding. *)
Theorem unknown_request_callback_uses_default_context
    (r : Z) (cleartexts proof : list byte) (c : Ctx) (s : Storage) :
  decryptionContexts s !! r = None →
  decryptionContexts_at s r = zero_DecryptionContext ∧
  myCallback r cleartexts proof s ≠ Revert Error.ReplayAttempt ∧
  (fingerprint (proposals_at s 0) ≠ 0 →
     myCallback r cleartexts proof s = Revert Error.StateMismatch ∧
     transact c (Call.myCallback r cleartexts proof) s = s) ∧
  (succeeds (myCallback r cleartexts proof) s = true →
     fingerprint (proposals_at s 0) = 0) ∧
  (succeeds (myCallback r cleartexts proof) s = true ∨
   myCallback r cleartexts proof s = Revert Error.StateMismatch ∨
   myCallback r cleartexts proof s = Revert Error.CheckSignaturesFailed ∨
   myCallback r cleartexts proof s = Revert Error.AbiDecodeFailed).
Proof.
  intros Hnone.
  assert (Hctx : decryptionContexts_at s r = zero_DecryptionContext).
  { unfold decryptionContexts_at, mapping_get. now rewrite Hnone. }
  assert (Heq : myCallback r cleartexts proof s =
                if fingerprint (proposals_at s 0) =? 0
                then if FHE.checkSignatures r cleartexts proof
                     then match abi_decode_uint256x3 cleartexts with
                          | Some (pid, tv, mp) =>
                              Ok (tt,
                                  set_decryptionContexts r
                                    (set_processed true zero_DecryptionContext)
                                    s,
                                  [Event.DecryptionCompleted r 0 pid tv mp
                                     (mp >=? tv)])
                          | None => Revert Error.AbiDecodeFailed
                          end
                     else Revert Error.CheckSignaturesFailed
                else Revert Error.StateMismatch).
  { rewrite myCallback_eq. cbv zeta. rewrite Hctx. reflexivity. }
  split; [exact Hctx|].
  split.
  { rewrite Heq. repeat split_guard; try discriminate.
    split_decode; discriminate. }
  split.
  { intros Hnz. apply Z.eqb_neq in Hnz. split.
    - now rewrite Heq, Hnz.
    - unfold transact. cbn [dispatch]. now rewrite Heq, Hnz. }
  split.
  { unfold succeeds. rewrite Heq.
    destruct (Z.eqb_spec (fingerprint (proposals_at s 0)) 0);
      [auto | discriminate]. }
  unfold succeeds. rewrite Heq.
  repeat split_guard; try split_decode; auto.
Qed.

(** A callback that returns emits exactly one event,
    [DecryptionCompleted], carrying the three decoded words and the
    comparison [marketPrediction >= targetValue]. *)
Lemma myCallback_decision
    (r : Z) (cleartexts proof : list byte) (s s1 : Storage)
    (evs : list Event.t) :
  myCallback r cleartexts proof s = Ok (tt, s1, evs) →
  ∃ proposalId targetValue marketPrediction : Z,
    abi_decode_uint256x3 cleartexts =
      Some (proposalId, targetValue, marketPrediction) ∧
    evs = [Event.DecryptionCompleted r
             (batchId (decryptionContexts_at s r)) proposalId targetValue
             marketPrediction (marketPrediction >=? targetValue)] ∧
    ((marketPrediction >=? targetValue) = true ↔
     targetValue ≤ marketPrediction) ∧
    (targetValue = marketPrediction →
     (marketPrediction >=? targetValue) = true).
Proof.
  intros Hok.
  apply myCallback_Ok in Hok as (_ & _ & _ & _ & pid & tv & mp & Hdec & Hev).
  exists pid, tv, mp. repeat split; try assumption.
  - intros H. apply Z.geb_le in H. lia.
  - intros H. apply Z.geb_le. lia.
  - intros ->. apply Z.geb_le. lia.
Qed.

(** ** Pausing *)

Lemma unguarded_call_ignores_paused c call s flag :
  Call.has_whenNotPaused call = false →
  succeeds (dispatch c call) (set_paused flag s) =
  succeeds (dispatch c call) s.
Proof.
  intros Hg. destruct call; try discriminate Hg; unfold succeeds;
    cbn [dispatch]; rewrite_call;
    unfold isProvider_at, decryptionContexts_at, proposals_at; cbn;
    repeat first [split_guard | split_decode]; reflexivity.
Qed.

(** C3, as the code has it. While the pause flag is set, the calls that
    carry [whenNotPaused] ([pause], [openBatch], [closeBatch],
    [submitProposal], [requestGovernanceDecision]) revert for every caller,
    with [Paused] when the caller passes the access modifier that comes
    first and with the access error otherwise, and the transaction changes
    nothing. The other calls ([transferOwnership], [addProvider],
    [removeProvider], [unpause], [setCooldownSeconds], [myCallback]) never
    revert with [Paused] and return or revert regardless of the flag; apart
    from the callback they return exactly when the caller is the owner. *)
Theorem paused_blocks_only_whenNotPaused_calls
    (c : Ctx) (call : Call.t) (s : Storage) :
  paused s = true →
  (Call.has_whenNotPaused call = true →
     dispatch c call s =
       Revert (match access_modifier c call s with
               | Ok _ => Error.Paused
               | Revert e => e
               end) ∧
     transact c call s = s ∧
     emitted c call s = []) ∧
  (Call.has_whenNotPaused call = false →
     dispatch c call s ≠ Revert Error.Paused ∧
     (∀ flag : bool,
        succeeds (dispatch c call) (set_paused flag s) =
        succeeds (dispatch c call) s) ∧
     (Call.is_myCallback call = false →
        succeeds (dispatch c call) s = succeeds (access_modifier c call) s)).
Proof.
  intros Hp. split; intros Hg.
  - destruct call; try discriminate Hg;
      unfold access_modifier, transact, emitted;
      cbn [dispatch Call.has_onlyOwner Call.has_onlyProvider];
      rewrite_call; unfold_call; cbn; rewrite ?Hp;
      repeat (split_guard; cbn); auto.
  - split; [|split].
    + destruct call; try discriminate Hg; cbn [dispatch]; rewrite_call;
        cbv zeta; repeat first [split_guard | split_decode]; discriminate.
    + intros flag. now apply unguarded_call_ignores_paused.
    + intros Hcb. destruct call; try discriminate Hg; try discriminate Hcb;
        unfold access_modifier, succeeds;
        cbn [dispatch Call.has_onlyOwner Call.has_onlyProvider];
        rewrite_call; unfold_call; cbn;
        repeat (split_guard; cbn); reflexivity.
Qed.

(** ** Opening a batch retires the previous one *)

Lemma request_modifiers_eq c s :
  request_modifiers c s =
  if isProvider_at s (msg_sender c)
  then if paused s then Revert Error.Paused
  else if MAX_UINT256 <?
            lastDecryptionRequestTime_at s (msg_sender c) + cooldownSeconds s
       then Revert Error.Panic
  else if block_timestamp c <?
            lastDecryptionRequestTime_at s (msg_sender c) + cooldownSeconds s
       then Revert Error.CooldownActive
  else Ok (tt, s, [])
  else Revert Error.NotProvider.
Proof. unfold_call; cbn; repeat (split_guard; cbn; try done). Qed.

(** [requestGovernanceDecision] rejects every batch id but the current
    one: the call never returns, and past the modifiers the error is
    [InvalidBatchId]. *)
Lemma requestGovernanceDecision_other_batch c b s :
  b ≠ currentBatchId s →
  succeeds (requestGovernanceDecision c b) s = false ∧
  (succeeds (request_modifiers c) s = true →
   requestGovernanceDecision c b s = Revert Error.InvalidBatchId).
Proof.
  intros Hne. apply Z.eqb_neq in Hne. unfold succeeds.
  rewrite requestGovernanceDecision_eq, request_modifiers_eq, Hne.
  repeat split_guard; split; intros; try discriminate; reflexivity.
Qed.

Lemma run_currentBatchId_le tr s :
  currentBatchId s ≤ currentBatchId (run tr s).
Proof. rewrite run_currentBatchId. lia. Qed.

(** [n] calls of [openBatch] by the owner of an unpaused contract raise
    the batch id by [n], as long as it stays within [uint256]. *)
Lemma run_repeat_openBatch c n : ∀ s,
  msg_sender c = owner s →
  paused s = false →
  currentBatchId s + Z.of_nat n ≤ MAX_UINT256 →
  run (repeat (c, Call.openBatch) n) s =
  match n with
  | O => s
  | S _ => set_batchOpen true
             (set_currentBatchId (currentBatchId s + Z.of_nat n) s)
  end.
Proof.
  induction n as [|n IH]; intros s Hown Hp Hmax; [reflexivity|].
  cbn [repeat run].
  assert (Hs1 : transact c Call.openBatch s =
                set_batchOpen true
                  (set_currentBatchId (currentBatchId s + 1) s)).
  { unfold transact. cbn [dispatch]. rewrite openBatch_eq, Hp.
    apply Z.eqb_eq in Hown as ->.
    assert (Hlt : (MAX_UINT256 <? currentBatchId s + 1) = false)
      by (apply Z.ltb_ge; lia).
    now rewrite Hlt. }
  rewrite Hs1, IH; cbn [owner paused currentBatchId set_batchOpen
                         set_currentBatchId]; try assumption; try lia.
  destruct n as [|n]; [reflexivity|].
  unfold set_batchOpen, set_currentBatchId. cbn. f_equal. lia.
Qed.

(** C10, as the code has it. [openBatch] returns whenever the caller is the
    owner, the contract is not paused and [currentBatchId] is below
    [MAX_UINT256], whether or not the current batch is still open. It
    raises [currentBatchId] by 1 and opens the new batch. From then on,
    after any further transactions, [requestGovernanceDecision] for the
    previous batch id never returns, and past its modifiers it reverts
    with [InvalidBatchId]. *)
Theorem openBatch_retires_previous_batch
    (c c' : Ctx) (s : Storage) (tr : list (Ctx * Call.t)) :
  msg_sender c = owner s →
  paused s = false →
  currentBatchId s < MAX_UINT256 →
  succeeds (openBatch c) s = true ∧
  currentBatchId (transact c Call.openBatch s) = currentBatchId s + 1 ∧
  batchOpen (transact c Call.openBatch s) = true ∧
  succeeds (requestGovernanceDecision c' (currentBatchId s))
           (run tr (transact c Call.openBatch s)) = false ∧
  (succeeds (request_modifiers c') (run tr (transact c Call.openBatch s))
     = true →
   requestGovernanceDecision c' (currentBatchId s)
     (run tr (transact c Call.openBatch s)) = Revert Error.InvalidBatchId).
Proof.
  intros Hown Hp Hmax.
  assert (Hopen : openBatch c s =
                  Ok (tt,
                      set_batchOpen true
                        (set_currentBatchId (currentBatchId s + 1) s),
                      [Event.BatchOpened (currentBatchId s + 1)])).
  { rewrite openBatch_eq, Hp.
    apply Z.eqb_eq in Hown as ->.
    assert (Hlt : (MAX_UINT256 <? currentBatchId s + 1) = false)
      by (apply Z.ltb_ge; lia).
    now rewrite Hlt. }
  assert (Hs1 : transact c Call.openBatch s =
                set_batchOpen true
                  (set_currentBatchId (currentBatchId s + 1) s)).
  { unfold transact. cbn [dispatch]. now rewrite Hopen. }
  assert (Hne : currentBatchId s ≠
                currentBatchId (run tr (transact c Call.openBatch s))).
  { pose proof (run_currentBatchId_le tr (transact c Call.openBatch s)) as Hle.
    rewrite Hs1 in Hle at 1. cbn in Hle. lia. }
  split; [unfold succeeds; now rewrite Hopen|].
  split; [now rewrite Hs1|].
  split; [now rewrite Hs1|].
  apply requestGovernanceDecision_other_batch. exact Hne.
Qed.

(** ** What [submitProposal] stores *)

(** The three handles are stored as they were passed: [_initIfNeeded]
    changes neither its argument nor the storage. *)
Lemma submitProposal_stores_arguments c a b d s s1 evs :
  submitProposal c a b d s = Ok (tt, s1, evs) →
  proposals_at s1 (currentBatchId s1) =
    {| encryptedProposalId := a; encryptedTargetValue := b;
       encryptedMarketPrediction := d |} ∧
  _isProposalInitialized s1 (currentBatchId s1) =
    FHE.isInitialized a && FHE.isInitialized b && FHE.isInitialized d.
Proof.
  intros H. apply submitProposal_Ok in H as (_ & -> & _).
  unfold _isProposalInitialized, proposals_at. cbn.
  now rewrite mapping_get_insert, Z.eqb_refl.
Qed.

End Properties.

(** * The properties on concrete runs *)

(** C5. In every callback that returns, the decision carried by the one
    event emitted, [DecryptionCompleted], is the non-strict comparison
    [marketPrediction >= targetValue] of the decoded clear values. On the
    outstanding request 5: target 50 and prediction 75 give true, target 80
    and prediction 80 give true (a tie passes), target 80 and prediction
    79 give false. *)
Theorem callback_decision_is_prediction_ge_target :
  (∀ (host : FHE.Host) (r : Z) (cleartexts proof : list byte)
     (s s1 : Storage) (evs : list Event.t),
     myCallback r cleartexts proof s = Ok (tt, s1, evs) →
     ∃ proposalId targetValue marketPrediction : Z,
       abi_decode_uint256x3 cleartexts =
         Some (proposalId, targetValue, marketPrediction) ∧
       evs = [Event.DecryptionCompleted r
                (batchId (decryptionContexts_at s r)) proposalId targetValue
                marketPrediction (marketPrediction >=? targetValue)] ∧
       ((marketPrediction >=? targetValue) = true ↔
        targetValue ≤ marketPrediction)) ∧
  emitted (host := sample_host) (at_time 9 150)
    (Call.myCallback 5 (abi_encode_uint256x3 7 50 75) []) requested =
    [Event.DecryptionCompleted 5 1 7 50 75 true] ∧
  emitted (host := sample_host) (at_time 9 150)
    (Call.myCallback 5 (abi_encode_uint256x3 7 80 80) []) requested =
    [Event.DecryptionCompleted 5 1 7 80 80 true] ∧
  emitted (host := sample_host) (at_time 9 150)
    (Call.myCallback 5 (abi_encode_uint256x3 7 80 79) []) requested =
    [Event.DecryptionCompleted 5 1 7 80 79 false].
Proof.
  split.
  - intros host r cleartexts proof s s1 evs Hok.
    destruct (myCallback_decision r cleartexts proof s s1 evs Hok)
      as (pid & tv & mp & Hdec & Hev & Hiff & _).
    exists pid, tv, mp. auto.
  - repeat split; vm_compute; reflexivity.
Qed.

Lemma callback_decision_settled_run :
  ∃ proposalId targetValue marketPrediction : Z,
    abi_decode_uint256x3 (abi_encode_uint256x3 7 60 90) =
      Some (proposalId, targetValue, marketPrediction) ∧
    [Event.DecryptionCompleted 5 1 7 60 90 true] =
      [Event.DecryptionCompleted 5
         (batchId (decryptionContexts_at requested 5)) proposalId targetValue
         marketPrediction (marketPrediction >=? targetValue)] ∧
    ((marketPrediction >=? targetValue) = true ↔
     targetValue ≤ marketPrediction).
Proof.
  apply (proj1 callback_decision_is_prediction_ge_target sample_host 5
           (abi_encode_uint256x3 7 60 90) [] requested settled).
  vm_compute. reflexivity.
Defined.

(** C4 fails on the code. [submitProposal] stores the three handles as
    they were passed: on every host, the proposal stored under the current
    batch id is the argument triple, and it is initialized exactly when
    all three arguments were. With the owner submitting three zero handles
    to the open batch 1, the call returns, the stored triple is the
    all-zero proposal, [_isProposalInitialized] is false for it, and the
    decision request for batch 1 reverts with [ProposalNotInitialized]. *)
Theorem submitProposal_stores_handles_as_passed :
  (∀ (host : FHE.Host) (c : Ctx) (a b d : Z) (s s1 : Storage)
     (evs : list Event.t),
     submitProposal c a b d s = Ok (tt, s1, evs) →
     proposals_at s1 (currentBatchId s1) =
       {| encryptedProposalId := a; encryptedTargetValue := b;
          encryptedMarketPrediction := d |} ∧
     _isProposalInitialized s1 (currentBatchId s1) =
       FHE.isInitialized a && FHE.isInitialized b && FHE.isInitialized d) ∧
  succeeds (submitProposal (host := sample_host) (at_time 1 100) 0 0 0)
           opened = true ∧
  FHE.isInitialized (Host := sample_host) 0 = false ∧
  proposals_at
    (transact (host := sample_host) (at_time 1 100)
       (Call.submitProposal 0 0 0) opened) 1 = zero_Proposal ∧
  _isProposalInitialized (host := sample_host)
    (transact (host := sample_host) (at_time 1 100)
       (Call.submitProposal 0 0 0) opened) 1 = false ∧
  requestGovernanceDecision (host := sample_host) (at_time_reply 1 100 5) 1
    (transact (host := sample_host) (at_time 1 100)
       (Call.submitProposal 0 0 0) opened) =
    Revert Error.ProposalNotInitialized.
Proof.
  split.
  - intros host c a b d s s1 evs Hok.
    exact (submitProposal_stores_arguments c a b d s s1 evs Hok).
  - repeat split; vm_compute; reflexivity.
Qed.

(** Request 5 was issued over the handles (11, 12, 13); after they are
    overwritten with (21, 22, 23) its callback reverts with
    [StateMismatch], although payload and proof are acceptable. *)
Lemma overwritten_run_StateMismatch :
  myCallback (host := sample_host) 5 (abi_encode_uint256x3 7 60 90) []
    overwritten = Revert Error.StateMismatch ∧
  transact (host := sample_host) (at_time 9 300)
    (Call.myCallback 5 (abi_encode_uint256x3 7 60 90) []) overwritten =
    overwritten.
Proof.
  pose proof (overwritten_proposal_callback_StateMismatch
                (host := sample_host)
                (at_time_reply 1 100 5) (at_time 1 200) (at_time 9 300)
                1 21 22 23 (abi_encode_uint256x3 7 60 90) []
                submitted requested overwritten
                [Event.DecryptionRequested 5 1]
                [Event.ProposalSubmitted 1 1]) as H.
  destruct H as (_ & _ & _ & Hcb & Htx & _).
  - vm_compute. reflexivity.
  - vm_compute. reflexivity.
  - vm_compute. discriminate.
  - split; [exact Hcb | exact Htx].
Defined.

(** Request 5 is settled; after the later transactions (which overwrite
    the proposal and open batch 2) a second delivery, here with an empty
    payload, reverts with [ReplayAttempt] and changes nothing. *)
Lemma settled_run_ReplayAttempt :
  processed (decryptionContexts_at
               (run (host := sample_host) later_transactions settled) 5)
    = true ∧
  myCallback (host := sample_host) 5 [] []
    (run (host := sample_host) later_transactions settled) =
    Revert Error.ReplayAttempt ∧
  transact (host := sample_host) (at_time 9 400) (Call.myCallback 5 [] [])
    (run (host := sample_host) later_transactions settled) =
    run (host := sample_host) later_transactions settled.
Proof.
  pose proof (processed_request_callback_ReplayAttempt
                (host := sample_host) 5 (abi_encode_uint256x3 7 60 90) []
                [] [] requested settled
                [Event.DecryptionCompleted 5 1 7 60 90 true]
                later_transactions (at_time 9 400)) as H.
  destruct H as (_ & Hp & Hcb & Htx & _).
  - vm_compute. reflexivity.
  - vm_compute. reflexivity.
  - repeat split; assumption.
Defined.

(** No context was stored under request id 77; its callback reads the
    default context, passes the replay check and reverts with
    [StateMismatch]. *)
Lemma unknown_request_run_StateMismatch :
  decryptionContexts_at requested 77 = zero_DecryptionContext ∧
  myCallback (host := sample_host) 77 (abi_encode_uint256x3 7 60 90) []
    requested = Revert Error.StateMismatch.
Proof.
  pose proof (unknown_request_callback_uses_default_context
                (host := sample_host) 77 (abi_encode_uint256x3 7 60 90) []
                (at_time 9 150) requested) as H.
  destruct H as (Hctx & _ & Hstale & _).
  - vm_compute. reflexivity.
  - split; [exact Hctx|]. apply Hstale. vm_compute. discriminate.
Defined.

(** C3 fails on the code. With the contract paused, the owner's
    [transferOwnership], [addProvider], [removeProvider] and
    [setCooldownSeconds] return and change the storage, and the callback
    of the outstanding request 5 returns and settles it. *)
Lemma paused_run_admin_calls_and_callback_return :
  paused deployed_paused = true ∧
  transferOwnership (at_time 1 50) 2 deployed_paused =
    Ok (tt, set_owner 2 deployed_paused, [Event.OwnershipTransferred 1 2]) ∧
  owner deployed_paused = 1 ∧
  owner (transact (host := sample_host) (at_time 1 50)
           (Call.transferOwnership 2) deployed_paused) = 2 ∧
  addProvider (at_time 1 50) 3 deployed_paused =
    Ok (tt, set_isProvider 3 true deployed_paused, [Event.ProviderAdded 3]) ∧
  removeProvider (at_time 1 50) 1 deployed_paused =
    Ok (tt, set_isProvider 1 false deployed_paused,
        [Event.ProviderRemoved 1]) ∧
  setCooldownSeconds (at_time 1 50) 5 deployed_paused =
    Ok (tt, set_cooldownSeconds 5 deployed_paused, [Event.CooldownSet 60 5]) ∧
  paused requested_paused = true ∧
  emitted (host := sample_host) (at_time 9 150)
    (Call.myCallback 5 (abi_encode_uint256x3 7 60 90) []) requested_paused =
    [Event.DecryptionCompleted 5 1 7 60 90 true] ∧
  processed (decryptionContexts_at
               (transact (host := sample_host) (at_time 9 150)
                  (Call.myCallback 5 (abi_encode_uint256x3 7 60 90) [])
                  requested_paused) 5) = true.
Proof. repeat split; vm_compute; reflexivity. Qed.

(** With the contract paused, the owner's [openBatch] reverts with
    [Paused] and changes nothing. *)
Lemma paused_run_openBatch_reverts :
  dispatch (host := sample_host) (at_time 1 50) Call.openBatch
    deployed_paused = Revert Error.Paused ∧
  transact (host := sample_host) (at_time 1 50) Call.openBatch
    deployed_paused = deployed_paused.
Proof.
  pose proof (paused_blocks_only_whenNotPaused_calls (host := sample_host)
                (at_time 1 50) Call.openBatch deployed_paused) as H.
  destruct H as [Hgated _]; [vm_compute; reflexivity|].
  destruct Hgated as (Herr & Htx & _); [reflexivity|].
  split; [exact Herr | exact Htx].
Defined.

Lemma run_openBatch_calls :
  run (host := sample_host) (openBatch_calls (Z.to_nat MAX_UINT256)) deployed =
  exhausted.
Proof.
  unfold openBatch_calls.
  assert (Hpos : (0 < Z.to_nat MAX_UINT256)%nat)
    by (unfold MAX_UINT256; lia).
  rewrite run_repeat_openBatch.
  - destruct (Z.to_nat MAX_UINT256) as [|n] eqn:Hn; [lia|].
    rewrite <- Hn, Z2Nat.id by (unfold MAX_UINT256; lia). reflexivity.
  - reflexivity.
  - reflexivity.
  - rewrite Z2Nat.id by (unfold MAX_UINT256; lia).
    change (currentBatchId deployed) with 0. lia.
Qed.

(** C10 fails on the code at the top of the range: after [MAX_UINT256]
    calls of [openBatch] the batch counter is at [MAX_UINT256]; the
    contract is not paused, and the next [openBatch] of the owner reverts
    with [Panic], leaving the counter where it is. *)
Lemma exhausted_run_openBatch_Panic :
  run (host := sample_host) (openBatch_calls (Z.to_nat MAX_UINT256)) deployed =
    exhausted ∧
  msg_sender (at_time 1 10) = owner exhausted ∧
  paused exhausted = false ∧
  currentBatchId exhausted = MAX_UINT256 ∧
  openBatch (at_time 1 10) exhausted = Revert Error.Panic ∧
  succeeds (openBatch (at_time 1 10)) exhausted = false ∧
  currentBatchId
    (transact (host := sample_host) (at_time 1 10) Call.openBatch exhausted) =
    MAX_UINT256.
Proof.
  split; [exact run_openBatch_calls|].
  repeat split; vm_compute; reflexivity.
Qed.

(** Batch 1 is open and holds a proposal; the owner opens batch 2 and
    closes it. A decision request for batch 1 then reverts with
    [InvalidBatchId]. *)
Lemma reopened_run_InvalidBatchId :
  batchOpen submitted = true ∧
  currentBatchId
    (transact (host := sample_host) (at_time 1 110) Call.openBatch submitted)
    = 2 ∧
  requestGovernanceDecision (host := sample_host) (at_time_reply 1 500 6) 1
    (run (host := sample_host) [(at_time 1 120, Call.closeBatch)]
       (transact (host := sample_host) (at_time 1 110) Call.openBatch
          submitted)) = Revert Error.InvalidBatchId.
Proof.
  pose proof (openBatch_retires_previous_batch (host := sample_host)
                (at_time 1 110) (at_time_reply 1 500 6) submitted
                [(at_time 1 120, Call.closeBatch)]) as H.
  destruct H as (_ & Hid & _ & _ & Herr).
  - vm_compute. reflexivity.
  - vm_compute. reflexivity.
  - vm_compute. reflexivity.
  - split; [vm_compute; reflexivity|]. split; [exact Hid|].
    apply Herr. vm_compute. reflexivity.
Defined.

(** * Further properties of the contract *)

Section Roles.
Context `{host : FHE.Host}.

(** ** Who may call what *)

Lemma dispatch_NotOwner c call s :
  Call.has_onlyOwner call = true →
  msg_sender c ≠ owner s →
  dispatch c call s = Revert Error.NotOwner.
Proof.
  intros Hcall Hne. apply Z.eqb_neq in Hne.
  destruct call; try discriminate Hcall; cbn [dispatch]; rewrite_call;
    now rewrite Hne.
Qed.

Lemma dispatch_NotProvider c call s :
  Call.has_onlyProvider call = true →
  isProvider_at s (msg_sender c) = false →
  dispatch c call s = Revert Error.NotProvider.
Proof.
  intros Hcall Hnp.
  destruct call; try discriminate Hcall; cbn [dispatch]; rewrite_call;
    now rewrite Hnp.
Qed.

(** X1. Every function that carries [onlyOwner] reverts with [NotOwner]
    for a caller that is not the owner, whatever the rest of the storage
    is (paused or not), and the transaction changes nothing. *)
Theorem onlyOwner_calls_reject_other_callers
    (c : Ctx) (call : Call.t) (s : Storage) :
  Call.has_onlyOwner call = true →
  msg_sender c ≠ owner s →
  dispatch c call s = Revert Error.NotOwner ∧
  transact c call s = s ∧
  emitted c call s = [].
Proof.
  intros Hcall Hne.
  pose proof (dispatch_NotOwner c call s Hcall Hne) as Hrev.
  split; [exact Hrev|]. now apply transact_revert in Hrev.
Qed.

(** X2. [submitProposal] and [requestGovernanceDecision] revert with
    [NotProvider] for a caller whose provider flag is not set, before the
    pause, cooldown, batch and proposal checks, and the transaction
    changes nothing. *)
Theorem onlyProvider_calls_reject_other_callers
    (c : Ctx) (call : Call.t) (s : Storage) :
  Call.has_onlyProvider call = true →
  isProvider_at s (msg_sender c) = false →
  dispatch c call s = Revert Error.NotProvider ∧
  transact c call s = s ∧
  emitted c call s = [].
Proof.
  intros Hcall Hnp.
  pose proof (dispatch_NotProvider c call s Hcall Hnp) as Hrev.
  split; [exact Hrev|]. now apply transact_revert in Hrev.
Qed.

(** X3. No transaction sent by someone other than the owner changes the
    owner, the provider flags, the pause flag, the cooldown interval, the
    batch counter or the open flag. *)
Theorem administration_changes_only_by_owner
    (c : Ctx) (call : Call.t) (s : Storage) :
  msg_sender c ≠ owner s →
  owner (transact c call s) = owner s ∧
  isProvider (transact c call s) = isProvider s ∧
  paused (transact c call s) = paused s ∧
  cooldownSeconds (transact c call s) = cooldownSeconds s ∧
  currentBatchId (transact c call s) = currentBatchId s ∧
  batchOpen (transact c call s) = batchOpen s.
Proof.
  intros Hne. apply Z.eqb_neq in Hne.
  destruct call; unfold transact; cbn [dispatch]; rewrite_call;
    rewrite ?Hne; cbv zeta;
    repeat (first [split_guard | split_decode]; cbn); auto 10.
Qed.

(** X4. No transaction sent by an address whose provider flag is not set
    changes a stored proposal or a cooldown timestamp; the only change it
    can make to the decryption contexts is through [myCallback]. *)
Theorem proposals_change_only_by_providers
    (c : Ctx) (call : Call.t) (s : Storage) :
  isProvider_at s (msg_sender c) = false →
  proposals (transact c call s) = proposals s ∧
  lastSubmissionTime (transact c call s) = lastSubmissionTime s ∧
  lastDecryptionRequestTime (transact c call s) =
    lastDecryptionRequestTime s ∧
  (Call.is_myCallback call = false →
   decryptionContexts (transact c call s) = decryptionContexts s).
Proof.
  intros Hnp.
  destruct call; unfold transact; cbn [dispatch Call.is_myCallback];
    rewrite_call; rewrite ?Hnp; cbv zeta;
    repeat (first [split_guard | split_decode]; cbn);
    repeat split; intros; try discriminate; reflexivity.
Qed.

(** X5. A callback that returns writes nothing but the processed flag of
    its request: the other storage variables and every other context stay
    as they were, and the context keeps its batch id and its fingerprint. *)
Theorem myCallback_writes_only_processed_flag
    (r : Z) (cleartexts proof : list byte) (s s1 : Storage)
    (evs : list Event.t) :
  myCallback r cleartexts proof s = Ok (tt, s1, evs) →
  owner s1 = owner s ∧
  isProvider s1 = isProvider s ∧
  lastSubmissionTime s1 = lastSubmissionTime s ∧
  lastDecryptionRequestTime s1 = lastDecryptionRequestTime s ∧
  paused s1 = paused s ∧
  cooldownSeconds s1 = cooldownSeconds s ∧
  currentBatchId s1 = currentBatchId s ∧
  batchOpen s1 = batchOpen s ∧
  proposals s1 = proposals s ∧
  (∀ r' : Z,
     decryptionContexts_at s1 r' =
       if r' =? r then set_processed true (decryptionContexts_at s r)
       else decryptionContexts_at s r') ∧
  batchId (decryptionContexts_at s1 r) = batchId (decryptionContexts_at s r) ∧
  stateHash (decryptionContexts_at s1 r) =
    stateHash (decryptionContexts_at s r) ∧
  processed (decryptionContexts_at s r) = false ∧
  processed (decryptionContexts_at s1 r) = true.
Proof.
  intros Hok. apply myCallback_Ok in Hok as (Hp & _ & _ & -> & _).
  assert (Hread : ∀ r' : Z,
            decryptionContexts_at
              (set_decryptionContexts r
                 (set_processed true (decryptionContexts_at s r)) s) r' =
            if r' =? r then set_processed true (decryptionContexts_at s r)
            else decryptionContexts_at s r').
  { intros r'. unfold decryptionContexts_at at 1. cbn.
    now rewrite mapping_get_insert. }
  repeat split; try reflexivity; try exact Hp; try exact Hread;
    rewrite Hread, Z.eqb_refl; reflexivity.
Qed.

(** X6. [transferOwnership] by the owner hands the owner role to the new
    address, whatever it is, and emits [OwnershipTransferred]; the
    provider flags stay as they were. From then on every [onlyOwner]
    function rejects every caller but the new owner, and the new owner can
    submit proposals only if its provider flag was already set. *)
Theorem transferOwnership_moves_owner_role_only
    (c : Ctx) (newOwner : Z) (s s1 : Storage) (evs : list Event.t) :
  transferOwnership c newOwner s = Ok (tt, s1, evs) →
  msg_sender c = owner s ∧
  owner s1 = newOwner ∧
  evs = [Event.OwnershipTransferred (owner s) newOwner] ∧
  isProvider s1 = isProvider s ∧
  (∀ (c' : Ctx) (call : Call.t),
     Call.has_onlyOwner call = true → msg_sender c' ≠ newOwner →
     dispatch c' call s1 = Revert Error.NotOwner) ∧
  (∀ (c' : Ctx) (a b d : Z),
     msg_sender c' = newOwner → isProvider_at s newOwner = false →
     submitProposal c' a b d s1 = Revert Error.NotProvider).
Proof.
  rewrite transferOwnership_eq. intros H.
  destruct (msg_sender c =? owner s) eqn:Hown; [|discriminate H].
  apply Z.eqb_eq in Hown. injection H as <- <-.
  repeat split; try assumption.
  - intros c' call Hcall Hne. now apply dispatch_NotOwner.
  - intros c' a b d Hsender Hnp.
    apply (dispatch_NotProvider c' (Call.submitProposal a b d));
      [reflexivity|]. now rewrite Hsender.
Qed.

End Roles.

Section Gates.
Context `{host : FHE.Host}.

(** ** Cooldown, batches, pausing and providers *)

Lemma submitProposal_Ok_gates c a b d s s1 evs :
  submitProposal c a b d s = Ok (tt, s1, evs) →
  isProvider_at s (msg_sender c) = true ∧
  paused s = false ∧
  lastSubmissionTime_at s (msg_sender c) + cooldownSeconds s ≤ MAX_UINT256 ∧
  lastSubmissionTime_at s (msg_sender c) + cooldownSeconds s
    ≤ block_timestamp c ∧
  batchOpen s = true.
Proof.
  rewrite submitProposal_eq. intros H. repeat split_guard_in H.
  repeat match goal with
         | Hlt : (_ <? _) = false |- _ => apply Z.ltb_ge in Hlt
         end.
  auto.
Qed.

(** For a provider on an unpaused contract only the cooldown and the open
    flag decide a submission. *)
Lemma submitProposal_provider_unpaused c a b d s :
  isProvider_at s (msg_sender c) = true →
  paused s = false →
  submitProposal c a b d s =
  if MAX_UINT256 <?
       lastSubmissionTime_at s (msg_sender c) + cooldownSeconds s
  then Revert Error.Panic
  else if block_timestamp c <?
            lastSubmissionTime_at s (msg_sender c) + cooldownSeconds s
  then Revert Error.CooldownActive
  else if batchOpen s
  then Ok (tt,
           set_proposals (currentBatchId s)
             {| encryptedProposalId := a; encryptedTargetValue := b;
                encryptedMarketPrediction := d |}
             (set_lastSubmissionTime (msg_sender c) (block_timestamp c) s),
           [Event.ProposalSubmitted (currentBatchId s) (msg_sender c)])
  else Revert Error.BatchClosed.
Proof. intros Hprov Hp. now rewrite submitProposal_eq, Hprov, Hp. Qed.

Lemma ltb_false_of_le (x y : Z) : x ≤ y → (y <? x) = false.
Proof. intros H. now apply Z.ltb_ge. Qed.

Lemma ltb_true_of_lt (x y : Z) : x < y → (x <? y) = true.
Proof. intros H. now apply Z.ltb_lt. Qed.

(** X7. After a [submitProposal] at time [t1] has returned, a further
    [submitProposal] of the same sender reverts with [CooldownActive]
    while [block.timestamp < t1 + cooldownSeconds] and returns from
    [t1 + cooldownSeconds] on (the sum being a [uint256]); the last
    submission time of every other address is untouched. *)
Theorem second_submitProposal_waits_for_cooldown
    (c1 c2 : Ctx) (a b d a' b' d' : Z) (s s1 : Storage)
    (evs : list Event.t) :
  submitProposal c1 a b d s = Ok (tt, s1, evs) →
  msg_sender c2 = msg_sender c1 →
  block_timestamp c1 + cooldownSeconds s ≤ MAX_UINT256 →
  (block_timestamp c2 < block_timestamp c1 + cooldownSeconds s →
   submitProposal c2 a' b' d' s1 = Revert Error.CooldownActive) ∧
  (block_timestamp c1 + cooldownSeconds s ≤ block_timestamp c2 →
   succeeds (submitProposal c2 a' b' d') s1 = true) ∧
  (∀ other : Z,
     other ≠ msg_sender c1 →
     lastSubmissionTime_at s1 other = lastSubmissionTime_at s other).
Proof.
  intros Hok Hsame Hmax.
  pose proof (submitProposal_Ok_gates _ _ _ _ _ _ _ Hok)
    as (Hprov & Hp & _ & _ & Hopen).
  apply submitProposal_Ok in Hok as (_ & -> & _).
  assert (Hlast : ∀ x : Z,
            lastSubmissionTime_at
              (set_proposals (currentBatchId s)
                 {| encryptedProposalId := a; encryptedTargetValue := b;
                    encryptedMarketPrediction := d |}
                 (set_lastSubmissionTime (msg_sender c1)
                    (block_timestamp c1) s)) x =
            if x =? msg_sender c1 then block_timestamp c1
            else lastSubmissionTime_at s x).
  { intros x. unfold lastSubmissionTime_at. cbn.
    now rewrite mapping_get_insert. }
  split; [|split].
  - intros Hearly. rewrite submitProposal_provider_unpaused;
      [|rewrite Hsame; exact Hprov | exact Hp].
    rewrite Hlast, Hsame, Z.eqb_refl. cbn [cooldownSeconds set_proposals
      set_lastSubmissionTime].
    rewrite (ltb_false_of_le _ _ Hmax), (ltb_true_of_lt _ _ Hearly).
    reflexivity.
  - intros Hlate. unfold succeeds.
    rewrite submitProposal_provider_unpaused;
      [|rewrite Hsame; exact Hprov | exact Hp].
    rewrite Hlast, Hsame, Z.eqb_refl. cbn [cooldownSeconds batchOpen
      set_proposals set_lastSubmissionTime].
    rewrite (ltb_false_of_le _ _ Hmax), (ltb_false_of_le _ _ Hlate), Hopen.
    reflexivity.
  - intros other Hne. rewrite Hlast.
    now apply Z.eqb_neq in Hne as ->.
Qed.

(** X8. [setCooldownSeconds] by the owner emits [CooldownSet] with the old
    and the new value, and the new value decides the very next check. For
    a provider whose last submission was at [l], on the unpaused contract:
    when [l + n] exceeds [MAX_UINT256] every [submitProposal] reverts with
    [Panic], at any time; otherwise it reverts with [CooldownActive]
    before [l + n] and, the batch being open, returns from [l + n] on. *)
Theorem setCooldownSeconds_decides_next_check
    (c c' : Ctx) (n a b d : Z) (s s1 : Storage) (evs : list Event.t) :
  setCooldownSeconds c n s = Ok (tt, s1, evs) →
  isProvider_at s (msg_sender c') = true →
  paused s = false →
  evs = [Event.CooldownSet (cooldownSeconds s) n] ∧
  cooldownSeconds s1 = n ∧
  (MAX_UINT256 < lastSubmissionTime_at s (msg_sender c') + n →
   submitProposal c' a b d s1 = Revert Error.Panic) ∧
  (lastSubmissionTime_at s (msg_sender c') + n ≤ MAX_UINT256 →
   block_timestamp c' < lastSubmissionTime_at s (msg_sender c') + n →
   submitProposal c' a b d s1 = Revert Error.CooldownActive) ∧
  (lastSubmissionTime_at s (msg_sender c') + n ≤ MAX_UINT256 →
   lastSubmissionTime_at s (msg_sender c') + n ≤ block_timestamp c' →
   batchOpen s = true →
   succeeds (submitProposal c' a b d) s1 = true).
Proof.
  rewrite setCooldownSeconds_eq. intros H Hprov Hp.
  destruct (msg_sender c =? owner s); [|discriminate H].
  injection H as <- <-.
  assert (Heq : ∀ x y z : Z,
            submitProposal c' x y z (set_cooldownSeconds n s) =
            if MAX_UINT256 <? lastSubmissionTime_at s (msg_sender c') + n
            then Revert Error.Panic
            else if block_timestamp c' <?
                      lastSubmissionTime_at s (msg_sender c') + n
            then Revert Error.CooldownActive
            else if batchOpen s
            then Ok (tt,
                     set_proposals (currentBatchId s)
                       {| encryptedProposalId := x;
                          encryptedTargetValue := y;
                          encryptedMarketPrediction := z |}
                       (set_lastSubmissionTime (msg_sender c')
                          (block_timestamp c') (set_cooldownSeconds n s)),
                     [Event.ProposalSubmitted (currentBatchId s)
                        (msg_sender c')])
            else Revert Error.BatchClosed).
  { intros x y z. now rewrite submitProposal_provider_unpaused. }
  repeat split.
  - intros Hover. rewrite Heq. now rewrite (ltb_true_of_lt _ _ Hover).
  - intros Hfit Hearly. rewrite Heq.
    now rewrite (ltb_false_of_le _ _ Hfit), (ltb_true_of_lt _ _ Hearly).
  - intros Hfit Hlate Hopen. unfold succeeds. rewrite Heq.
    now rewrite (ltb_false_of_le _ _ Hfit), (ltb_false_of_le _ _ Hlate),
      Hopen.
Qed.

(** X9. An address that never submitted is gated as if its last
    submission was at time 0: its [submitProposal] reverts with
    [CooldownActive] while [block.timestamp < cooldownSeconds]. *)
Theorem first_submitProposal_gated_from_time_zero
    (c : Ctx) (a b d : Z) (s : Storage) :
  lastSubmissionTime s !! msg_sender c = None →
  isProvider_at s (msg_sender c) = true →
  paused s = false →
  cooldownSeconds s ≤ MAX_UINT256 →
  block_timestamp c < cooldownSeconds s →
  submitProposal c a b d s = Revert Error.CooldownActive.
Proof.
  intros Hnone Hprov Hp Hfit Hearly.
  rewrite submitProposal_provider_unpaused by assumption.
  unfold lastSubmissionTime_at, mapping_get. rewrite Hnone. cbn [default].
  rewrite Z.add_0_l.
  now rewrite (ltb_false_of_le _ _ Hfit), (ltb_true_of_lt _ _ Hearly).
Qed.

(** X10. Of two submissions to the same batch that both return, only the
    handles of the second remain stored for that batch id; no other batch
    id is written, and the batch counter does not move. *)
Theorem resubmission_overwrites_current_batch_only
    (c1 c2 : Ctx) (a b d a' b' d' : Z) (s s1 s2 : Storage)
    (ev1 ev2 : list Event.t) :
  submitProposal c1 a b d s = Ok (tt, s1, ev1) →
  submitProposal c2 a' b' d' s1 = Ok (tt, s2, ev2) →
  currentBatchId s2 = currentBatchId s ∧
  proposals_at s1 (currentBatchId s) =
    {| encryptedProposalId := a; encryptedTargetValue := b;
       encryptedMarketPrediction := d |} ∧
  proposals_at s2 (currentBatchId s) =
    {| encryptedProposalId := a'; encryptedTargetValue := b';
       encryptedMarketPrediction := d' |} ∧
  (∀ other : Z,
     other ≠ currentBatchId s →
     proposals_at s2 other = proposals_at s other).
Proof.
  intros H1 H2.
  apply submitProposal_Ok in H1 as (_ & -> & _).
  apply submitProposal_Ok in H2 as (_ & -> & _).
  unfold proposals_at. cbn.
  repeat split; rewrite ?mapping_get_insert, ?Z.eqb_refl; try reflexivity.
  intros other Hne. rewrite !mapping_get_insert.
  now apply Z.eqb_neq in Hne as ->.
Qed.

(** X11. [closeBatch] by the owner clears the open flag and nothing else
    (it does not ask that the batch was open or holds a proposal), and
    emits [BatchClosed] with the current id. Afterwards no
    [submitProposal] returns — a provider past the cooldown gets
    [BatchClosed] — while every [requestGovernanceDecision] fares as it
    would have before the batch was closed. *)
Theorem closeBatch_stops_submissions_not_requests
    (c : Ctx) (s s1 : Storage) (evs : list Event.t) :
  closeBatch c s = Ok (tt, s1, evs) →
  s1 = set_batchOpen false s ∧
  evs = [Event.BatchClosed (currentBatchId s)] ∧
  (∀ (c' : Ctx) (a b d : Z), succeeds (submitProposal c' a b d) s1 = false) ∧
  (∀ (c' : Ctx) (a b d : Z),
     isProvider_at s (msg_sender c') = true →
     lastSubmissionTime_at s (msg_sender c') + cooldownSeconds s
       ≤ MAX_UINT256 →
     lastSubmissionTime_at s (msg_sender c') + cooldownSeconds s
       ≤ block_timestamp c' →
     submitProposal c' a b d s1 = Revert Error.BatchClosed) ∧
  (∀ (c' : Ctx) (b : Z),
     succeeds (requestGovernanceDecision c' b) s1 =
     succeeds (requestGovernanceDecision c' b) s).
Proof.
  rewrite closeBatch_eq. intros H.
  destruct (msg_sender c =? owner s); [|discriminate H].
  destruct (paused s) eqn:Hp; [discriminate H|].
  injection H as <- <-.
  repeat split.
  - intros c' a b d. unfold succeeds. rewrite submitProposal_eq. cbn.
    repeat split_guard; reflexivity.
  - intros c' a b d Hprov Hfit Hlate.
    rewrite submitProposal_provider_unpaused by assumption.
    change (lastSubmissionTime_at (set_batchOpen false s) (msg_sender c'))
      with (lastSubmissionTime_at s (msg_sender c')).
    cbn [cooldownSeconds batchOpen set_batchOpen].
    now rewrite (ltb_false_of_le _ _ Hfit), (ltb_false_of_le _ _ Hlate).
  - intros c' b. unfold succeeds. rewrite !requestGovernanceDecision_eq.
    unfold isProvider_at, lastDecryptionRequestTime_at,
      _isProposalInitialized, proposals_at. cbn.
    repeat (split_guard; try reflexivity).
Qed.

(** X12. [pause] returns only on an unpaused contract; once it has
    returned, a second [pause] never returns, the owner's [unpause] brings
    the storage back exactly to what it was before the pause, and
    [unpause] on the unpaused storage returns too, emitting [Unpaused]
    and changing nothing. *)
Theorem pause_unpause_round_trip
    (c c' : Ctx) (s s1 : Storage) (evs : list Event.t) :
  pause c s = Ok (tt, s1, evs) →
  msg_sender c' = owner s →
  paused s = false ∧
  paused s1 = true ∧
  evs = [Event.Paused (msg_sender c)] ∧
  pause c' s1 = Revert Error.Paused ∧
  unpause c' s1 = Ok (tt, s, [Event.Unpaused (msg_sender c')]) ∧
  unpause c' s = Ok (tt, s, [Event.Unpaused (msg_sender c')]).
Proof.
  rewrite pause_eq. intros H Hown'.
  destruct (msg_sender c =? owner s); [|discriminate H].
  destruct (paused s) eqn:Hp; [discriminate H|].
  injection H as <- <-. apply Z.eqb_eq in Hown'.
  assert (Hback : set_paused false (set_paused true s) = s).
  { destruct s. cbn in Hp. subst. reflexivity. }
  assert (Hsame : set_paused false s = s).
  { destruct s. cbn in Hp. subst. reflexivity. }
  repeat split.
  - rewrite pause_eq. cbn [owner paused set_paused]. now rewrite Hown'.
  - rewrite unpause_eq. cbn [owner set_paused]. now rewrite Hown', Hback.
  - rewrite unpause_eq. now rewrite Hown', Hsame.
Qed.

(** X13. For the owner, [addProvider] sets and [removeProvider] clears the
    flag of exactly the address given and leave every other flag alone;
    the event is emitted exactly when the flag changes, and a call that
    changes no flag changes nothing at all. *)
Theorem addProvider_removeProvider_flag
    (c : Ctx) (provider : Z) (s : Storage) :
  msg_sender c = owner s →
  (∀ a : Z,
     isProvider_at (transact c (Call.addProvider provider) s) a =
       if a =? provider then true else isProvider_at s a) ∧
  (∀ a : Z,
     isProvider_at (transact c (Call.removeProvider provider) s) a =
       if a =? provider then false else isProvider_at s a) ∧
  emitted c (Call.addProvider provider) s =
    (if isProvider_at s provider then []
     else [Event.ProviderAdded provider]) ∧
  emitted c (Call.removeProvider provider) s =
    (if isProvider_at s provider then [Event.ProviderRemoved provider]
     else []) ∧
  (isProvider_at s provider = true →
   transact c (Call.addProvider provider) s = s) ∧
  (isProvider_at s provider = false →
   transact c (Call.removeProvider provider) s = s).
Proof.
  intros Hown. apply Z.eqb_eq in Hown.
  unfold transact, emitted. cbn [dispatch].
  rewrite addProvider_eq, removeProvider_eq, Hown.
  repeat split.
  - intros a. destruct (isProvider_at s provider) eqn:Hflag.
    + destruct (Z.eqb_spec a provider) as [->|]; [now rewrite Hflag | easy].
    + unfold isProvider_at. cbn. now rewrite mapping_get_insert.
  - intros a. destruct (isProvider_at s provider) eqn:Hflag.
    + unfold isProvider_at. cbn. now rewrite mapping_get_insert.
    + destruct (Z.eqb_spec a provider) as [->|]; [now rewrite Hflag | easy].
  - now destruct (isProvider_at s provider).
  - now destruct (isProvider_at s provider).
  - now intros ->.
  - now intros ->.
Qed.

End Gates.

Section Encoding.
Context `{host : FHE.Host}.

(** ** The fingerprint loop and the decoding of clear values *)

(** X14. [_hashCiphertexts] takes at most three handles: a fourth one is
    an out-of-bounds write and the call reverts with [Panic]. With fewer
    than three, the slots that are not written stay zero and are hashed
    as such, followed by [address(this)]. *)
Theorem hashCiphertexts_three_slots (cts : list Z) :
  _hashCiphertexts cts =
  if (length cts <=? 3)%nat
  then Ok (FHE.keccak256
             (map FHE.toBytes32 cts ++ repeat 0 (3 - length cts)
              ++ [FHE.this]))
  else Revert Error.Panic.
Proof.
  destruct cts as [|a [|b [|d [|e rest]]]]; reflexivity.
Qed.

Lemma fold_bytes_bound (bs : list byte) : ∀ acc : Z,
  0 ≤ acc →
  acc * 256 ^ Z.of_nat (length bs)
    ≤ fold_left (λ acc b, acc * 256 + Z.of_N (Byte.to_N b)) bs acc
    < (acc + 1) * 256 ^ Z.of_nat (length bs).
Proof.
  induction bs as [|b bs IH]; intros acc Hacc.
  - cbn. lia.
  - cbn [fold_left length]. rewrite Nat2Z.inj_succ, Z.pow_succ_r by lia.
    pose proof (Byte.to_N_bounded b) as Hb.
    assert (Hpow : 0 < 256 ^ Z.of_nat (length bs))
      by (apply Z.pow_pos_nonneg; lia).
    specialize (IH (acc * 256 + Z.of_N (Byte.to_N b))).
    nia.
Qed.

Lemma uint256_of_bytes_range (bs : list byte) :
  (length bs ≤ 32)%nat → 0 ≤ uint256_of_bytes bs ≤ MAX_UINT256.
Proof.
  intros Hlen. unfold uint256_of_bytes, MAX_UINT256.
  pose proof (fold_bytes_bound bs 0 ltac:(lia)) as Hb.
  assert (Hmono : 256 ^ Z.of_nat (length bs) ≤ 256 ^ 32)
    by (apply Z.pow_le_mono_r; lia).
  change (256 ^ 32) with (2 ^ 256) in Hmono. lia.
Qed.

(** X15. [abi.decode] of the clear values fails exactly on input shorter
    than 96 bytes; whenever it returns, each of the three words is a
    [uint256]. *)
Theorem abi_decode_uint256x3_length_and_range (data : list byte) :
  (abi_decode_uint256x3 data = None ↔ (length data < 96)%nat) ∧
  (∀ proposalId targetValue marketPrediction : Z,
     abi_decode_uint256x3 data =
       Some (proposalId, targetValue, marketPrediction) →
     0 ≤ proposalId ≤ MAX_UINT256 ∧
     0 ≤ targetValue ≤ MAX_UINT256 ∧
     0 ≤ marketPrediction ≤ MAX_UINT256).
Proof.
  unfold abi_decode_uint256x3.
  destruct (Nat.ltb_spec (length data) 96) as [Hshort|Hlong]; split.
  - split; [intros _; exact Hshort | reflexivity].
  - intros p t m H. discriminate H.
  - split; [intros H; discriminate H | intros H; lia].
  - intros p t m H. injection H as <- <- <-.
    repeat split; apply uint256_of_bytes_range; rewrite length_take; lia.
Qed.

(** X16. The encoding of three [uint256] values is 96 bytes long and
    decodes to the same three values; bytes that follow it are ignored. *)
Theorem abi_decode_encode_ignores_trailing_bytes
    (a b c : Z) (trailing : list byte) :
  0 ≤ a ≤ MAX_UINT256 → 0 ≤ b ≤ MAX_UINT256 → 0 ≤ c ≤ MAX_UINT256 →
  length (abi_encode_uint256x3 a b c) = 96%nat ∧
  abi_decode_uint256x3 (abi_encode_uint256x3 a b c ++ trailing) =
    Some (a, b, c).
Proof.
  unfold MAX_UINT256. intros Ha Hb Hc.
  assert (Hword : ∀ v, 0 ≤ v ≤ 2 ^ 256 - 1 →
                       uint256_of_bytes (bytes_of_uint 32 v) = v).
  { intros v Hv. rewrite uint256_of_bytes_of_uint by lia.
    change (256 ^ Z.of_nat 32) with (2 ^ 256). apply Z.mod_small. lia. }
  unfold abi_decode_uint256x3, abi_encode_uint256x3.
  split; [now rewrite !length_app, !length_bytes_of_uint|].
  rewrite !length_app, !length_bytes_of_uint.
  destruct (Nat.ltb_spec (32 + (32 + 32) + length trailing) 96);
    [lia|].
  rewrite <- !app_assoc.
  rewrite (take_app_length' (bytes_of_uint 32 a))
    by now rewrite length_bytes_of_uint.
  rewrite (drop_app_length' (bytes_of_uint 32 a))
    by now rewrite length_bytes_of_uint.
  rewrite (take_app_length' (bytes_of_uint 32 b))
    by now rewrite length_bytes_of_uint.
  change 64%nat with (32 + 32)%nat. rewrite <- drop_drop.
  rewrite (drop_app_length' (bytes_of_uint 32 a))
    by now rewrite length_bytes_of_uint.
  rewrite (drop_app_length' (bytes_of_uint 32 b))
    by now rewrite length_bytes_of_uint.
  rewrite (take_app_length' (bytes_of_uint 32 c))
    by now rewrite length_bytes_of_uint.
  now rewrite !Hword.
Qed.

(** X17. A delivery whose payload is shorter than 96 bytes, for a request
    that is not processed, whose fingerprint still matches and whose
    proof is accepted, reverts at the decoding; the request stays
    unprocessed. *)
Theorem short_payload_callback_reverts_at_decoding
    (c : Ctx) (r : Z) (cleartexts proof : list byte) (s : Storage) :
  processed (decryptionContexts_at s r) = false →
  fingerprint (proposals_at s (batchId (decryptionContexts_at s r))) =
    stateHash (decryptionContexts_at s r) →
  FHE.checkSignatures r cleartexts proof = true →
  (length cleartexts < 96)%nat →
  myCallback r cleartexts proof s = Revert Error.AbiDecodeFailed ∧
  processed
    (decryptionContexts_at
       (transact c (Call.myCallback r cleartexts proof) s) r) = false.
Proof.
  intros Hp Hfp Hsig Hshort.
  assert (Hdec : abi_decode_uint256x3 cleartexts = None).
  { unfold abi_decode_uint256x3.
    now apply Nat.ltb_lt in Hshort as ->. }
  assert (Hrev : myCallback r cleartexts proof s =
                 Revert Error.AbiDecodeFailed).
  { rewrite myCallback_eq. cbv zeta.
    apply Z.eqb_eq in Hfp. now rewrite Hp, Hfp, Hsig, Hdec. }
  split; [exact Hrev|].
  apply (transact_revert c (Call.myCallback r cleartexts proof)) in Hrev
    as [-> _].
  exact Hp.
Qed.

End Encoding.

Section Runs.
Context `{host : FHE.Host}.

(** ** Invariants of runs and the life of a request *)

Lemma batch_invariant_constructed (c : Ctx) : batch_invariant (constructed c).
Proof.
  unfold batch_invariant, constructed, MAX_UINT256. cbn.
  repeat split; try lia; try discriminate;
    intros k v Hl; rewrite lookup_empty in Hl; discriminate Hl.
Qed.

Lemma batch_invariant_transact c call s :
  batch_invariant s → batch_invariant (transact c call s).
Proof.
  unfold batch_invariant. intros (Hc & Ho & Hprop & Hctx).
  destruct call; unfold transact; cbn [dispatch]; rewrite_call; cbv zeta;
    repeat (first [split_guard | split_decode]; cbn);
    try exact (conj Hc (conj Ho (conj Hprop Hctx)));
    eqb_to_eq;
    repeat match goal with
           | Hlt : (_ <? _) = false |- _ => apply Z.ltb_ge in Hlt
           end;
    (split; [|split; [|split]]); try lia; try assumption;
    try (intros Hopen; apply Ho; congruence).
  - (* openBatch: the counter moves up by one *)
    intros b p Hl. apply Hprop in Hl. lia.
  - intros r d Hl. apply Hctx in Hl. lia.
  - (* submitProposal: written under the id of the open batch *)
    intros b p Hl. apply lookup_insert_Some in Hl as [[<- _]|[_ Hl]].
    + specialize (Ho eq_refl). lia.
    + now apply Hprop in Hl.
  - (* requestGovernanceDecision: the context names the current batch *)
    intros r d Hl. apply lookup_insert_Some in Hl as [[_ <-]|[_ Hl]].
    + cbn. lia.
    + now apply Hctx in Hl.
  - (* myCallback: the context keeps its batch id *)
    intros r d Hl. apply lookup_insert_Some in Hl as [[_ <-]|[_ Hl]].
    + cbn. unfold decryptionContexts_at, mapping_get.
      destruct (decryptionContexts s !! requestId) as [d0|] eqn:Hd; cbn.
      * now apply Hctx in Hd.
      * lia.
    + now apply Hctx in Hl.
Qed.

Lemma batch_invariant_run tr : ∀ s,
  batch_invariant s → batch_invariant (run tr s).
Proof.
  induction tr as [|[c call] tr IH]; intros s Hinv; [exact Hinv|].
  cbn [run]. apply IH. now apply batch_invariant_transact.
Qed.

(** X18. In every storage reached from a deployment by any run of
    transactions: the batch counter is a [uint256]; an open batch has an
    id of at least 1; a proposal is stored only under an id from 1 to
    the current one, so batch 0 reads as the all-zero proposal; and every
    stored decryption context names a batch id from 0 to the current
    one. *)
Theorem run_keeps_batch_invariant
    (c0 : Ctx) (tr : list (Ctx * Call.t)) :
  0 ≤ currentBatchId (run tr (constructed c0)) ≤ MAX_UINT256 ∧
  (batchOpen (run tr (constructed c0)) = true →
   1 ≤ currentBatchId (run tr (constructed c0))) ∧
  (∀ (b : Z) (p : Proposal),
     proposals (run tr (constructed c0)) !! b = Some p →
     1 ≤ b ≤ currentBatchId (run tr (constructed c0))) ∧
  proposals_at (run tr (constructed c0)) 0 = zero_Proposal ∧
  (∀ (r : Z) (d : DecryptionContext),
     decryptionContexts (run tr (constructed c0)) !! r = Some d →
     0 ≤ batchId d ≤ currentBatchId (run tr (constructed c0))).
Proof.
  pose proof (batch_invariant_run tr _ (batch_invariant_constructed c0))
    as (Hc & Ho & Hprop & Hctx).
  split; [exact Hc|]. split; [exact Ho|]. split; [exact Hprop|].
  split; [|exact Hctx].
  unfold proposals_at, mapping_get.
  destruct (proposals (run tr (constructed c0)) !! 0) as [p|] eqn:Hp;
    [|reflexivity].
  apply Hprop in Hp. lia.
Qed.

(** X19. The batch that [openBatch] opens starts without a proposal, in
    every storage reached from a deployment: nothing is stored under the
    new id. On a host for which the zero handle is not initialized, a
    decision request for the new batch that passes the modifiers reverts
    with [ProposalNotInitialized]. *)
Theorem opened_batch_starts_without_proposal
    (c0 c c' : Ctx) (tr : list (Ctx * Call.t)) (s1 : Storage)
    (evs : list Event.t) :
  openBatch c (run tr (constructed c0)) = Ok (tt, s1, evs) →
  currentBatchId s1 = currentBatchId (run tr (constructed c0)) + 1 ∧
  proposals s1 !! currentBatchId s1 = None ∧
  proposals_at s1 (currentBatchId s1) = zero_Proposal ∧
  (FHE.isInitialized 0 = false →
   succeeds (request_modifiers c') s1 = true →
   requestGovernanceDecision c' (currentBatchId s1) s1 =
     Revert Error.ProposalNotInitialized).
Proof.
  pose proof (batch_invariant_run tr _ (batch_invariant_constructed c0))
    as (_ & _ & Hprop & _).
  rewrite openBatch_eq. intros H. repeat split_guard_in H.
  injection H as <- <-. cbn [currentBatchId proposals set_batchOpen
    set_currentBatchId].
  assert (Hnone : proposals (run tr (constructed c0))
                    !! (currentBatchId (run tr (constructed c0)) + 1) = None).
  { destruct (proposals (run tr (constructed c0))
                !! (currentBatchId (run tr (constructed c0)) + 1))
      as [p|] eqn:Hp; [|reflexivity].
    apply Hprop in Hp. lia. }
  assert (Hzero : proposals_at
                    (set_batchOpen true
                       (set_currentBatchId
                          (currentBatchId (run tr (constructed c0)) + 1)
                          (run tr (constructed c0))))
                    (currentBatchId (run tr (constructed c0)) + 1) =
                  zero_Proposal).
  { unfold proposals_at, mapping_get.
    cbn [proposals set_batchOpen set_currentBatchId]. now rewrite Hnone. }
  repeat split; try assumption.
  intros Huninit Hmods. unfold succeeds in Hmods.
  rewrite request_modifiers_eq in Hmods.
  rewrite requestGovernanceDecision_eq.
  repeat split_guard_in Hmods.
  cbn [currentBatchId set_batchOpen set_currentBatchId].
  rewrite Z.eqb_refl. unfold _isProposalInitialized.
  rewrite Hzero. cbn. now rewrite Huninit.
Qed.

Lemma transact_leaves_request c call s r :
  leaves_request r (c, call) = true →
  proposals (transact c call s) = proposals s ∧
  decryptionContexts_at (transact c call s) r = decryptionContexts_at s r.
Proof.
  unfold leaves_request, decryptionContexts_at. cbn [fst snd]. intros Hl.
  destruct call; try discriminate Hl; call_cases;
    rewrite ?mapping_get_insert; try (split; reflexivity);
    apply negb_true_iff in Hl.
  - now rewrite Z.eqb_sym, Hl.
  - now rewrite Z.eqb_sym, Hl.
Qed.

Lemma run_leaves_request tr r : ∀ s,
  forallb (leaves_request r) tr = true →
  proposals (run tr s) = proposals s ∧
  decryptionContexts_at (run tr s) r = decryptionContexts_at s r.
Proof.
  induction tr as [|[c call] tr IH]; intros s Hl; [split; reflexivity|].
  cbn [forallb] in Hl. apply andb_true_iff in Hl as [Hhd Htl].
  cbn [run]. destruct (IH (transact c call s) Htl) as [-> ->].
  now apply transact_leaves_request.
Qed.

(** The callback of a request whose context and proposals are as the
    request left them settles it. *)
Lemma myCallback_settles r cleartexts proof B s p t m :
  decryptionContexts_at s r =
    {| batchId := B; stateHash := fingerprint (proposals_at s B);
       processed := false |} →
  FHE.checkSignatures r cleartexts proof = true →
  abi_decode_uint256x3 cleartexts = Some (p, t, m) →
  myCallback r cleartexts proof s =
    Ok (tt,
        set_decryptionContexts r
          {| batchId := B; stateHash := fingerprint (proposals_at s B);
             processed := true |} s,
        [Event.DecryptionCompleted r B p t m (m >=? t)]).
Proof.
  intros Hctx Hsig Hdec. rewrite myCallback_eq. cbv zeta.
  rewrite Hctx. cbn [processed batchId stateHash].
  now rewrite Z.eqb_refl, Hsig, Hdec.
Qed.

Lemma requestGovernanceDecision_context c B s s1 evs :
  requestGovernanceDecision c B s = Ok (tt, s1, evs) →
  decryptionContexts_at s1 (service_requestId c) =
    {| batchId := B; stateHash := fingerprint (proposals_at s1 B);
       processed := false |} ∧
  proposals s1 = proposals s.
Proof.
  intros H. apply requestGovernanceDecision_Ok in H as (_ & _ & -> & _).
  split; [|reflexivity].
  unfold decryptionContexts_at. cbn.
  now rewrite mapping_get_insert, Z.eqb_refl.
Qed.

(** X20. A request settles when its callback arrives with an accepted
    proof and a decodable payload, after any run of transactions none of
    which is a [submitProposal], a request answered with the same id or a
    callback for the same id: the callback returns, marks the context
    processed and emits [DecryptionCompleted] with the batch id of the
    request. Pausing, closing the batch or opening further batches in
    between does not prevent it. *)
Theorem undisturbed_request_settles
    (c : Ctx) (B : Z) (s s1 : Storage) (ev1 : list Event.t)
    (tr : list (Ctx * Call.t)) (cleartexts proof : list byte)
    (p t m : Z) :
  requestGovernanceDecision c B s = Ok (tt, s1, ev1) →
  forallb (leaves_request (service_requestId c)) tr = true →
  FHE.checkSignatures (service_requestId c) cleartexts proof = true →
  abi_decode_uint256x3 cleartexts = Some (p, t, m) →
  myCallback (service_requestId c) cleartexts proof (run tr s1) =
    Ok (tt,
        set_decryptionContexts (service_requestId c)
          {| batchId := B; stateHash := fingerprint (proposals_at s B);
             processed := true |} (run tr s1),
        [Event.DecryptionCompleted (service_requestId c) B p t m (m >=? t)]).
Proof.
  intros Hreq Hl Hsig Hdec.
  apply requestGovernanceDecision_context in Hreq as [Hctx Hprop].
  destruct (run_leaves_request tr (service_requestId c) s1 Hl)
    as [Hprop' Hctx'].
  assert (Hfp : ∀ x : Storage, proposals x = proposals s →
                               proposals_at x B = proposals_at s B).
  { intros x Hx. unfold proposals_at. now rewrite Hx. }
  rewrite (Hfp s1 Hprop) in Hctx.
  rewrite <- (Hfp (run tr s1)) in Hctx by now rewrite Hprop', Hprop.
  rewrite <- Hctx' in Hctx.
  rewrite (myCallback_settles _ _ _ _ _ _ _ _ Hctx Hsig Hdec).
  now rewrite (Hfp (run tr s1)) by now rewrite Hprop', Hprop.
Qed.


End Runs.

Section Settlement.
Context `{host : FHE.Host}.

(** ** A request is settled at most once *)

Lemma completions_app r evs1 evs2 :
  completions r (evs1 ++ evs2) =
  (completions r evs1 + completions r evs2)%nat.
Proof.
  induction evs1 as [|ev evs1 IH]; [reflexivity|].
  destruct ev; cbn [app completions]; rewrite ?IH; lia.
Qed.

(** A transaction emits a completion for [r] only as a callback that
    finds the context unprocessed and leaves it processed. *)
Lemma emitted_completions c call s r :
  completions r (emitted c call s) = O ∨
  (completions r (emitted c call s) = 1%nat ∧
   processed (decryptionContexts_at s r) = false ∧
   processed (decryptionContexts_at (transact c call s) r) = true).
Proof.
  destruct call; call_cases; try (left; reflexivity).
  eqb_to_eq. subst r. right.
  split; [reflexivity|]. split; [assumption|].
  unfold decryptionContexts_at at 1. cbn.
  now rewrite mapping_get_insert, Z.eqb_refl.
Qed.

Lemma run_log_completions tr r : ∀ s,
  forallb (λ tx, negb (allots r tx)) tr = true →
  (completions r (run_log tr s)
   ≤ if processed (decryptionContexts_at s r) then 0 else 1)%nat.
Proof.
  induction tr as [|[c call] tr IH]; intros s Hfresh.
  - cbn. lia.
  - cbn [forallb] in Hfresh. apply andb_true_iff in Hfresh as [Hhd Htl].
    apply negb_true_iff in Hhd.
    cbn [run_log]. rewrite completions_app.
    specialize (IH (transact c call s) Htl).
    destruct (emitted_completions c call s r) as [Hnone|(Hone & Hbefore & Hafter)].
    + rewrite Hnone.
      destruct (processed (decryptionContexts_at s r)) eqn:Hp.
      * rewrite (transact_processed c call s r Hp Hhd) in IH. lia.
      * destruct (processed (decryptionContexts_at (transact c call s) r));
          lia.
    + rewrite Hone, Hbefore. rewrite Hafter in IH. lia.
Qed.

(** X22. In a run in which the service hands out no request id equal to
    [r], at most one [DecryptionCompleted] event is emitted for [r], and
    none if the context of [r] is processed from the start. *)
Theorem request_settles_at_most_once
    (r : Z) (tr : list (Ctx * Call.t)) (s : Storage) :
  forallb (λ tx, negb (allots r tx)) tr = true →
  (completions r (run_log tr s) ≤ 1)%nat ∧
  (processed (decryptionContexts_at s r) = true →
   completions r (run_log tr s) = O).
Proof.
  intros Hfresh. pose proof (run_log_completions tr r s Hfresh) as Hle.
  split.
  - destruct (processed (decryptionContexts_at s r)); lia.
  - intros Hp. rewrite Hp in Hle. lia.
Qed.

End Settlement.

(** * The further properties on concrete runs *)

(** Account 2 is not the owner of the deployed contract: its
    [setCooldownSeconds] is rejected. *)
Lemma stranger_setCooldownSeconds_NotOwner :
  dispatch (host := sample_host) (at_time 2 50) (Call.setCooldownSeconds 0)
    deployed = Revert Error.NotOwner ∧
  transact (host := sample_host) (at_time 2 50) (Call.setCooldownSeconds 0)
    deployed = deployed ∧
  emitted (host := sample_host) (at_time 2 50) (Call.setCooldownSeconds 0)
    deployed = [].
Proof.
  apply (onlyOwner_calls_reject_other_callers (host := sample_host)).
  - reflexivity.
  - vm_compute. discriminate.
Defined.

(** Account 2 is not a provider: its submission to the open batch 1 is
    rejected. *)
Lemma stranger_submitProposal_NotProvider :
  dispatch (host := sample_host) (at_time 2 100)
    (Call.submitProposal 1 2 3) opened = Revert Error.NotProvider ∧
  transact (host := sample_host) (at_time 2 100)
    (Call.submitProposal 1 2 3) opened = opened ∧
  emitted (host := sample_host) (at_time 2 100)
    (Call.submitProposal 1 2 3) opened = [].
Proof.
  apply (onlyProvider_calls_reject_other_callers (host := sample_host)).
  - reflexivity.
  - vm_compute. reflexivity.
Defined.

Lemma stranger_openBatch_changes_no_administration :
  owner (transact (host := sample_host) (at_time 2 50) Call.openBatch
           deployed) = owner deployed ∧
  currentBatchId (transact (host := sample_host) (at_time 2 50)
                    Call.openBatch deployed) = currentBatchId deployed.
Proof.
  pose proof (administration_changes_only_by_owner (host := sample_host)
                (at_time 2 50) Call.openBatch deployed) as H.
  destruct H as (Ho & _ & _ & _ & Hb & _).
  - vm_compute. discriminate.
  - split; [exact Ho | exact Hb].
Defined.

Lemma stranger_submitProposal_changes_no_proposal :
  proposals (transact (host := sample_host) (at_time 2 100)
               (Call.submitProposal 1 2 3) submitted) = proposals submitted.
Proof.
  pose proof (proposals_change_only_by_providers (host := sample_host)
                (at_time 2 100) (Call.submitProposal 1 2 3) submitted) as H.
  destruct H as (Hp & _).
  - vm_compute. reflexivity.
  - exact Hp.
Defined.

Lemma settled_run_keeps_proposals :
  proposals settled = proposals requested ∧
  currentBatchId settled = currentBatchId requested ∧
  stateHash (decryptionContexts_at settled 5) =
    stateHash (decryptionContexts_at requested 5) ∧
  processed (decryptionContexts_at settled 5) = true.
Proof.
  pose proof (myCallback_writes_only_processed_flag (host := sample_host)
                5 (abi_encode_uint256x3 7 60 90) [] requested settled
                [Event.DecryptionCompleted 5 1 7 60 90 true]) as H.
  destruct H as (_ & _ & _ & _ & _ & _ & Hb & _ & Hp & _ & _ & Hh & _ & Hd).
  - vm_compute. reflexivity.
  - exact (conj Hp (conj Hb (conj Hh Hd))).
Defined.

(** The deployer hands the contract to account 2, which was never made a
    provider: account 2 is the owner and cannot submit. *)
Lemma handed_over_run_new_owner_NotProvider :
  owner (set_owner 2 deployed) = 2 ∧
  submitProposal (host := sample_host) (at_time 2 100) 1 2 3
    (set_owner 2 deployed) = Revert Error.NotProvider.
Proof.
  pose proof (transferOwnership_moves_owner_role_only (host := sample_host)
                (at_time 1 50) 2 deployed (set_owner 2 deployed)
                [Event.OwnershipTransferred 1 2]) as H.
  destruct H as (_ & Ho & _ & _ & _ & Hsub).
  - vm_compute. reflexivity.
  - split; [exact Ho|]. apply Hsub; vm_compute; reflexivity.
Defined.

(** The owner submitted at time 100 with a cooldown of 60: a second
    submission at time 120 is rejected, one at time 160 returns. *)
Lemma submitted_run_cooldown :
  submitProposal (host := sample_host) (at_time 1 120) 21 22 23 submitted =
    Revert Error.CooldownActive ∧
  succeeds (submitProposal (host := sample_host) (at_time 1 160) 21 22 23)
    submitted = true.
Proof.
  pose proof (second_submitProposal_waits_for_cooldown (host := sample_host)
                (at_time 1 100) (at_time 1 120) 11 12 13 21 22 23
                opened submitted [Event.ProposalSubmitted 1 1]) as H1.
  pose proof (second_submitProposal_waits_for_cooldown (host := sample_host)
                (at_time 1 100) (at_time 1 160) 11 12 13 21 22 23
                opened submitted [Event.ProposalSubmitted 1 1]) as H2.
  destruct H1 as (Hearly & _ & _);
    [vm_compute; reflexivity | reflexivity | vm_compute; discriminate |].
  destruct H2 as (_ & Hlate & _);
    [vm_compute; reflexivity | reflexivity | vm_compute; discriminate |].
  split.
  - apply Hearly. vm_compute. reflexivity.
  - apply Hlate. vm_compute. discriminate.
Defined.

(** The owner sets the cooldown to [MAX_UINT256] after a submission at
    time 100: every later submission of that provider reverts with
    [Panic]. *)
Lemma maximal_cooldown_run_Panic :
  cooldownSeconds (set_cooldownSeconds MAX_UINT256 submitted) =
    MAX_UINT256 ∧
  submitProposal (host := sample_host) (at_time 1 500) 21 22 23
    (set_cooldownSeconds MAX_UINT256 submitted) = Revert Error.Panic.
Proof.
  pose proof (setCooldownSeconds_decides_next_check (host := sample_host)
                (at_time 1 110) (at_time 1 500) MAX_UINT256 21 22 23
                submitted (set_cooldownSeconds MAX_UINT256 submitted)
                [Event.CooldownSet 60 MAX_UINT256]) as H.
  destruct H as (_ & Hcd & Hpanic & _).
  - vm_compute. reflexivity.
  - vm_compute. reflexivity.
  - vm_compute. reflexivity.
  - split; [exact Hcd|]. apply Hpanic. vm_compute. reflexivity.
Defined.

(** With the cooldown of 60 seconds set at deployment, the owner's first
    submission at time 30 is rejected. *)
Lemma opened_run_first_submission_CooldownActive :
  submitProposal (host := sample_host) (at_time 1 30) 11 12 13 opened =
    Revert Error.CooldownActive.
Proof.
  apply (first_submitProposal_gated_from_time_zero (host := sample_host));
    vm_compute; try reflexivity; discriminate.
Defined.

Lemma overwritten_run_keeps_second_handles :
  proposals_at
    (transact (host := sample_host) (at_time 1 200)
       (Call.submitProposal 21 22 23) submitted) 1 =
    {| encryptedProposalId := 21; encryptedTargetValue := 22;
       encryptedMarketPrediction := 23 |}.
Proof.
  pose proof (resubmission_overwrites_current_batch_only
                (host := sample_host) (at_time 1 100) (at_time 1 200)
                11 12 13 21 22 23 opened submitted
                (transact (host := sample_host) (at_time 1 200)
                   (Call.submitProposal 21 22 23) submitted)
                [Event.ProposalSubmitted 1 1]
                [Event.ProposalSubmitted 1 1]) as H.
  destruct H as (_ & _ & Hsecond & _).
  - vm_compute. reflexivity.
  - vm_compute. reflexivity.
  - exact Hsecond.
Defined.

(** Batch 1 is closed after the submission: a submission at time 200 is
    rejected with [BatchClosed], a decision request still returns. *)
Lemma closed_run_BatchClosed :
  submitProposal (host := sample_host) (at_time 1 200) 21 22 23
    (set_batchOpen false submitted) = Revert Error.BatchClosed ∧
  succeeds (requestGovernanceDecision (host := sample_host)
              (at_time_reply 1 200 5) 1) (set_batchOpen false submitted) =
    true.
Proof.
  pose proof (closeBatch_stops_submissions_not_requests
                (host := sample_host) (at_time 1 110) submitted
                (set_batchOpen false submitted) [Event.BatchClosed 1]) as H.
  destruct H as (_ & _ & _ & Hsub & Hreq).
  - vm_compute. reflexivity.
  - split.
    + apply Hsub; vm_compute; try reflexivity; discriminate.
    + rewrite Hreq. vm_compute. reflexivity.
Defined.

Lemma paused_run_unpause_restores :
  pause (at_time 1 30) deployed_paused = Revert Error.Paused ∧
  unpause (at_time 1 30) deployed_paused =
    Ok (tt, deployed, [Event.Unpaused 1]).
Proof.
  pose proof (pause_unpause_round_trip (at_time 1 20) (at_time 1 30)
                deployed deployed_paused [Event.Paused 1]) as H.
  destruct H as (_ & _ & _ & Hagain & Hback & _).
  - vm_compute. reflexivity.
  - reflexivity.
  - split; [exact Hagain | exact Hback].
Defined.

Lemma deployed_run_provider_flags :
  isProvider_at
    (transact (host := sample_host) (at_time 1 50) (Call.addProvider 3)
       deployed) 3 = true ∧
  isProvider_at
    (transact (host := sample_host) (at_time 1 50) (Call.removeProvider 1)
       deployed) 1 = false ∧
  emitted (host := sample_host) (at_time 1 50) (Call.addProvider 1)
    deployed = [].
Proof.
  pose proof (addProvider_removeProvider_flag (host := sample_host)
                (at_time 1 50) 3 deployed) as H3.
  pose proof (addProvider_removeProvider_flag (host := sample_host)
                (at_time 1 50) 1 deployed) as H1.
  destruct H3 as (Hadd & _); [reflexivity|].
  destruct H1 as (_ & Hrem & Hev & _); [reflexivity|].
  split; [|split].
  - now rewrite Hadd.
  - now rewrite Hrem.
  - rewrite Hev. vm_compute. reflexivity.
Defined.

Lemma trailing_byte_ignored :
  length (abi_encode_uint256x3 7 60 90) = 96%nat ∧
  abi_decode_uint256x3 (abi_encode_uint256x3 7 60 90 ++ [x01]) =
    Some (7, 60, 90).
Proof.
  apply abi_decode_encode_ignores_trailing_bytes;
    unfold MAX_UINT256; lia.
Defined.

(** An empty payload for the outstanding request 5: the callback reverts
    at the decoding and the request stays open. *)
Lemma requested_run_empty_payload_AbiDecodeFailed :
  myCallback (host := sample_host) 5 [] [] requested =
    Revert Error.AbiDecodeFailed ∧
  processed
    (decryptionContexts_at
       (transact (host := sample_host) (at_time 9 150)
          (Call.myCallback 5 [] []) requested) 5) = false.
Proof.
  apply (short_payload_callback_reverts_at_decoding (host := sample_host));
    vm_compute; try reflexivity; lia.
Defined.

(** Batch 1, just opened on the deployed contract, holds no proposal: a
    decision request for it reverts with [ProposalNotInitialized]. *)
Lemma opened_run_ProposalNotInitialized :
  proposals opened !! currentBatchId opened = None ∧
  requestGovernanceDecision (host := sample_host) (at_time_reply 1 100 5)
    (currentBatchId opened) opened = Revert Error.ProposalNotInitialized.
Proof.
  pose proof (opened_batch_starts_without_proposal (host := sample_host)
                (at_time 1 0) (at_time 1 10) (at_time_reply 1 100 5) []
                opened [Event.BatchOpened 1]) as H.
  destruct H as (_ & Hnone & _ & Hreq).
  - vm_compute. reflexivity.
  - split; [exact Hnone|]. apply Hreq; vm_compute; reflexivity.
Defined.

(** After request 5 the batch is closed, the contract paused and unpaused
    and batch 2 opened; the callback for request 5 still settles it. *)
Lemma retired_batch_run_settles :
  succeeds
    (myCallback (host := sample_host) 5 (abi_encode_uint256x3 7 60 90) [])
    (run (host := sample_host)
       [(at_time 1 110, Call.closeBatch); (at_time 1 120, Call.pause);
        (at_time 1 130, Call.unpause); (at_time 1 140, Call.openBatch)]
       requested) = true.
Proof.
  pose proof (undisturbed_request_settles (host := sample_host)
                (at_time_reply 1 100 5) 1 submitted requested
                [Event.DecryptionRequested 5 1]
                [(at_time 1 110, Call.closeBatch);
                 (at_time 1 120, Call.pause);
                 (at_time 1 130, Call.unpause);
                 (at_time 1 140, Call.openBatch)]
                (abi_encode_uint256x3 7 60 90) [] 7 60 90) as H.
  change (service_requestId (at_time_reply 1 100 5)) with 5 in H.
  unfold succeeds. rewrite H; [reflexivity | vm_compute; reflexivity ..].
Defined.


(** Request 5 is delivered three times, the second time with another
    payload; one [DecryptionCompleted] is emitted for it. *)
Lemma triple_delivery_run_settles_once :
  (completions 5
     (run_log (host := sample_host)
        [(at_time 9 150, Call.myCallback 5 (abi_encode_uint256x3 7 60 90) []);
         (at_time 9 160, Call.myCallback 5 (abi_encode_uint256x3 7 60 10) []);
         (at_time 9 170, Call.myCallback 5 (abi_encode_uint256x3 7 60 90) [])]
        requested) ≤ 1)%nat ∧
  completions 5
    (run_log (host := sample_host)
       [(at_time 9 150, Call.myCallback 5 (abi_encode_uint256x3 7 60 90) []);
        (at_time 9 160, Call.myCallback 5 (abi_encode_uint256x3 7 60 10) []);
        (at_time 9 170, Call.myCallback 5 (abi_encode_uint256x3 7 60 90) [])]
       requested) = 1%nat.
Proof.
  pose proof (request_settles_at_most_once (host := sample_host) 5
                [(at_time 9 150,
                  Call.myCallback 5 (abi_encode_uint256x3 7 60 90) []);
                 (at_time 9 160,
                  Call.myCallback 5 (abi_encode_uint256x3 7 60 10) []);
                 (at_time 9 170,
                  Call.myCallback 5 (abi_encode_uint256x3 7 60 90) [])]
                requested) as H.
  destruct H as [Hle _]; [reflexivity|].
  split; [exact Hle|]. vm_compute. reflexivity.
Defined.
